(** * ASL translator backend: feature encoding, inference endpoint,
      static route and trainer fold selection.

    Shallow embedding of [backend/app.py], [backend/extract_landmarks.py]
    and [backend/train_model.py].

    Python floats are modelled by the rationals they denote ([Q]); the
    comparisons the code performs on them are exact on finite doubles, and
    the subtraction of [normalize_landmarks] rounds ([FloatArith]).
    Third-party calls (OpenCV decoding, the MediaPipe detector, the
    scikit-learn classifier, [numpy.argsort]) are parameters of the
    development.  Handlers run in a small writer/exception monad that
    records which of those calls were made. *)

From Stdlib Require Import List String Ascii Bool Arith ZArith QArith Qabs Lia.
From Stdlib Require Import Permutation Sorted DecimalString.
Import ListNotations.

Close Scope Q_scope.
Open Scope string_scope.
Open Scope list_scope.

Set Implicit Arguments.
Set Warnings "-register-all".

(* ================================================================== *)
(** ** Python values used by the handlers *)

(** A raised Python exception: its class name and [str(e)]. *)
Record exn : Type := Exception { exn_class : string; exn_str : string }.

Inductive result (A : Type) : Type :=
| Ok (a : A)
| Raise (e : exn).
Arguments Ok {A} a.
Arguments Raise {A} e.

(** Calls whose occurrence the specification talks about. *)
Inductive call : Type :=
| Call_imdecode
| Call_extract_landmarks
| Call_hands_process
| Call_normalize_landmarks
| Call_predict_proba.

(** A computation: the calls it made, then its value or the exception
    that escaped it. *)
Definition M (A : Type) : Type := (list call * result A)%type.

Definition ret {A} (a : A) : M A := ([], Ok a).
Definition raise {A} (e : exn) : M A := ([], Raise e).
Definition called (c : call) : M unit := ([c], Ok tt).

Definition bind {A B} (m : M A) (f : A -> M B) : M B :=
  match m with
  | (t, Ok a) => let (t', r) := f a in (t ++ t', r)
  | (t, Raise e) => (t, Raise e)
  end.

(** [try: m except Exception as e: h e] *)
Definition try_except {A} (m : M A) (h : exn -> M A) : M A :=
  match m with
  | (t, Ok a) => (t, Ok a)
  | (t, Raise e) => let (t', r) := h e in (t ++ t', r)
  end.

Definition lift {A} (r : result A) : M A := ([], r).

Definition trace {A} (m : M A) : list call := fst m.
Definition outcome {A} (m : M A) : result A := snd m.

Declare Scope py_scope.
Delimit Scope py_scope with py.
Notation "x <- m ;; k" := (bind m (fun x => k))
  (at level 61, m at next level, right associativity) : py_scope.
Notation "m ;;; k" := (bind m (fun _ => k))
  (at level 61, right associativity) : py_scope.

(** JSON documents produced by [jsonify]. *)
Inductive json : Type :=
| JNull
| JStr (s : string)
| JNum (q : Q)
| JArr (items : list json)
| JObj (fields : list (string * json)).

Fixpoint assoc {V} (k : string) (l : list (string * V)) : option V :=
  match l with
  | [] => None
  | (k', v) :: l' => if String.eqb k k' then Some v else assoc k l'
  end.

Definition json_get (k : string) (j : json) : option json :=
  match j with
  | JObj fields => assoc k fields
  | _ => None
  end.

(** What a Flask view returns: a JSON body with a status code, or the
    delegation [send_from_directory(directory, path)]. *)
Inductive response : Type :=
| Json (body : json) (status : nat)
| SendFromDirectory (directory path : string).

(** [str(n)] for a non-negative integer. *)
Definition str_of_nat (n : nat) : string := NilEmpty.string_of_uint (Nat.to_uint n).

(* ================================================================== *)
(** ** Floats: comparison and [format(x, ".2f")] *)

Definition Qltb (a b : Q) : bool := negb (Qle_bool b a).

(** Round a non-negative rational to the nearest integer, ties to even. *)
Definition round_half_even (a : Q) : Z :=
  let p := Qnum a in
  let d := Z.pos (Qden a) in
  let fl := (p / d)%Z in
  let r := (p mod d)%Z in
  match (2 * r ?= d)%Z with
  | Lt => fl
  | Gt => (fl + 1)%Z
  | Eq => if Z.even fl then fl else (fl + 1)%Z
  end.

Definition two_digits (n : nat) : string :=
  if (n <? 10)%nat then "0" ++ str_of_nat n else str_of_nat n.

(** [f"{q:.2f}"]: the exact value rounded to two decimals, ties to even. *)
Definition format_2f (q : Q) : string :=
  let neg := Qltb q 0 in
  let a := Qabs q in
  let n := Z.to_nat (round_half_even (a * 100)) in
  (if neg then "-" else "") ++ str_of_nat (n / 100)%nat ++ "." ++ two_digits (n mod 100)%nat.

(** The exponent of a positive value: the [e] with [2^e <= q < 2^(e+1)]. *)
Definition floor_log2 (q : Q) : Z :=
  let k := (Z.log2 (Qnum q) - Z.log2 (Z.pos (Qden q)))%Z in
  if Qle_bool (Qpower 2 k) q then k else (k - 1)%Z.

(** Round to the nearest binary64 value, ties to even, with gradual
    underflow.  (Values beyond the binary64 range, which a double turns into
    an infinity, are left to this formula.) *)
Definition round_binary64 (q : Q) : Q :=
  if (Qnum q =? 0)%Z then 0%Q
  else
    let a := Qabs q in
    let e := Z.max (floor_log2 a) (-1022) in
    let ulp := Qpower 2 (e - 52) in
    let m := round_half_even (a / ulp) in
    let r := (inject_Z m * ulp)%Q in
    if Qltb q 0 then (- r)%Q else r.

(** The float subtraction of the interpreter.  All the development uses of
    it is that a finite value minus itself is zero; [binary64] below is the
    IEEE 754 operation. *)
Class FloatArith : Type := {
  float_sub : Q -> Q -> Q;
  float_sub_self : forall x, (float_sub x x == 0)%Q
}.

(* ================================================================== *)
(** ** Landmarks and the feature encoder ([app.py], [extract_landmarks.py]) *)

(** A MediaPipe normalized landmark.  The code reads [x] and [y] only. *)
Record Landmark : Type := mkLandmark { lm_x : Q; lm_y : Q; lm_z : Q }.

(** One entry of [result.multi_hand_landmarks]. *)
Record HandLandmarks : Type := mkHand { landmark : list Landmark }.

(** A pandas frame as the code builds it: column names and rows. *)
Record DataFrame : Type := mkDataFrame { columns : list string; rows : list (list Q) }.

(** [pd.DataFrame(data, columns=names)]: every row must have one value per
    column. *)
Definition pd_DataFrame (data : list (list Q)) (names : list string) : result DataFrame :=
  match find (fun row => negb (List.length row =? List.length names)%nat) data with
  | Some row =>
      Raise (Exception "ValueError"
               (str_of_nat (List.length names) ++ " columns passed, passed data had "
                ++ str_of_nat (List.length row) ++ " columns")%string)
  | None => Ok (mkDataFrame names data)
  end.

(** [normalize_landmarks] of [app.py]: coordinates relative to the wrist
    (landmark 0).  Indexing an empty list raises [IndexError]. *)
Definition normalize_landmarks {fa : FloatArith} (landmarks : list Landmark)
  : M (list (list Q)) :=
  (called Call_normalize_landmarks ;;;
   match landmarks with
   | [] => raise (Exception "IndexError" "list index out of range")
   | wrist :: _ =>
       ret (map (fun lm => [float_sub (lm_x lm) (lm_x wrist);
                            float_sub (lm_y lm) (lm_y wrist)]) landmarks)
   end)%py.

(** The loop [for lm in hand_landmarks.landmark: coords.extend([lm.x, lm.y])],
    shared by [app.py] and the dataset builder. *)
Fixpoint coords_of (lms : list Landmark) : list Q :=
  match lms with
  | [] => []
  | lm :: rest => lm_x lm :: lm_y lm :: coords_of rest
  end.

(** [for i in range(21): feature_names.extend([f"x{i}", f"y{i}"])] *)
Definition names_upto (n : nat) : list string :=
  flat_map (fun i => [("x" ++ str_of_nat i)%string; ("y" ++ str_of_nat i)%string])
           (seq 0 n).

Definition feature_names : list string := names_upto 21.

(** The header row of [extract_landmarks.py]. *)
Definition header : list string := names_upto 21 ++ ["label"].

(** Lines 57-68 of [app.py]: from the chosen hand to the one-row frame. *)
Definition encode (hand_landmarks : HandLandmarks) : result DataFrame :=
  let coords := coords_of (landmark hand_landmarks) in
  pd_DataFrame [coords] feature_names.

(** The row the dataset builder writes for a detected hand. *)
Definition csv_row (hand_landmarks : HandLandmarks) (label : string)
  : list Q * string :=
  (coords_of (landmark hand_landmarks), label).

(** The scikit-learn model loaded at start-up. *)
Record Model : Type := mkModel {
  classes_ : list string;
  predict_proba : DataFrame -> result (list (list Q))
}.

(* ================================================================== *)
(** ** numpy helpers *)

(** [np.argmax]: index of the first maximum; raises on an empty array. *)
Fixpoint argmax_from (i best : nat) (bestv : Q) (l : list Q) : nat :=
  match l with
  | [] => best
  | v :: rest =>
      if Qltb bestv v then argmax_from (S i) i v rest
      else argmax_from (S i) best bestv rest
  end.

Definition np_argmax (probs : list Q) : result nat :=
  match probs with
  | [] => Raise (Exception "ValueError" "attempt to get argmax of an empty sequence")
  | v :: rest => Ok (argmax_from 1 0 v rest)
  end.

(** [a[i]] on a one-dimensional array, [i >= 0]. *)
Definition np_index {A} (a : list A) (i : nat) : result A :=
  match nth_error a i with
  | Some v => Ok v
  | None =>
      Raise (Exception "IndexError"
               ("index " ++ str_of_nat i ++ " is out of bounds for axis 0 with size "
                ++ str_of_nat (List.length a))%string)
  end.

(** [a[-n:]] *)
Definition last_n {A} (n : nat) (a : list A) : list A := skipn (List.length a - n) a.

(** The contract of [np.argsort] on a one-dimensional float array: the
    indices of the array, arranged so that the values ascend.  The order of
    equal values is left to the implementation (the default kind is not
    stable). *)
Class ArgSort : Type := {
  argsort : list Q -> list nat;
  argsort_perm : forall v, Permutation (argsort v) (seq 0 (List.length v));
  argsort_sorted : forall v,
    StronglySorted (fun i j => nth i v 0 <= nth j v 0)%Q (argsort v)
}.

(** [[f x for x in xs]] where [f] may raise. *)
Fixpoint mapM {A B} (f : A -> M B) (xs : list A) : M (list B) :=
  match xs with
  | [] => ret []
  | x :: rest => (y <- f x ;; ys <- mapM f rest ;; ret (y :: ys))%py
  end.

(* ================================================================== *)
(** ** The inference service ([app.py]) *)

(** The arguments of [mp_hands.Hands(...)]. *)
Record HandsConfig : Type := mkHands {
  static_image_mode : bool;
  max_num_hands : nat;
  min_detection_confidence : Q;
  min_tracking_confidence : Q
}.

Definition hands : HandsConfig := mkHands true 1 (1#2) (1#2).

(** The float literal [0.3], i.e. the double nearest to three tenths. *)
Definition confidence_threshold : Q := 5404319552844595 # 18014398509481984.

(** [cv2.imdecode] over an image codec.  OpenCV asserts that the buffer is
    not empty and raises [cv2.error] when it is; on any other buffer the
    result is the codec's, [None] for bytes that are not an image.  (The
    text of the error names the OpenCV build; its class is what matters.) *)
Definition cv2_imdecode {image : Type} (codec : list Byte.byte -> option image)
    (buf : list Byte.byte) : result (option image) :=
  match buf with
  | [] => Raise (Exception "cv2.error"
                   "(-215:Assertion failed) !buf.empty() in function 'imdecode_'")
  | _ :: _ => Ok (codec buf)
  end.

Section Service.

(** Decoded images, and the third-party functions applied to them. *)
Variable image : Type.
(** [cv2.imdecode(np.frombuffer(b, np.uint8), cv2.IMREAD_COLOR)];
    [None] when the bytes are not an image.  (OpenCV raises on some
    inputs, an empty buffer for one.) *)
Variable imdecode : list Byte.byte -> result (option image).
(** [cv2.cvtColor(img, cv2.COLOR_BGR2RGB)] *)
Variable cvtColor_BGR2RGB : image -> image.
(** The hands the detector can find in an image, in its own order. *)
Variable detectable_hands : image -> list HandLandmarks.
(** [joblib.load(MODEL_PATH)] *)
Variable model : Model.
Context {np : ArgSort}.

(** [hands.process(img).multi_hand_landmarks]: at most [max_num_hands]
    detections, [None] when there is none. *)
Definition hands_process (cfg : HandsConfig) (img_rgb : image)
  : M (option (list HandLandmarks)) :=
  (called Call_hands_process ;;;
   ret (match firstn (max_num_hands cfg) (detectable_hands img_rgb) with
        | [] => None
        | found => Some found
        end))%py.

Definition extract_landmarks (img_bgr : image) : M (option DataFrame) :=
  (called Call_extract_landmarks ;;;
   let img_rgb := cvtColor_BGR2RGB img_bgr in
   multi_hand_landmarks <- hands_process hands img_rgb ;;
   match multi_hand_landmarks with
   | None | Some [] => ret None
   | Some (hand_landmarks :: _) =>
       df <- lift (encode hand_landmarks) ;;
       ret (Some df)
   end)%py.

(** One element of the [top_predictions] comprehension. *)
Definition top_entry (probs : list Q) (i : nat) : M json :=
  (label <- lift (np_index (classes_ model) i) ;;
   p <- lift (np_index probs i) ;;
   ret (JObj [("label", JStr label); ("confidence", JNum p)]))%py.

(** [[... for i in np.argsort(probs)[-3:][::-1]]] *)
Definition top_predictions (probs : list Q) : M (list json) :=
  mapM (top_entry probs) (rev (last_n 3 (argsort probs))).

(** The body of the [try] block of [predict]. *)
Definition classify (landmarks : DataFrame) : M response :=
  (called Call_predict_proba ;;;
   proba <- lift (predict_proba model landmarks) ;;
   probs <- lift (np_index proba 0) ;;
   best_idx <- lift (np_argmax probs) ;;
   best_label <- lift (np_index (classes_ model) best_idx) ;;
   best_prob <- lift (np_index probs best_idx) ;;
   if Qltb best_prob confidence_threshold then
     tops <- top_predictions probs ;;
     ret (Json (JObj [("prediction", JNull);
                      ("message",
                       JStr ("low confidence (" ++ format_2f best_prob ++ ")")%string);
                      ("top_predictions", JArr tops)]) 200)
   else
     tops <- top_predictions probs ;;
     ret (Json (JObj [("prediction", JStr best_label);
                      ("confidence", JNum best_prob);
                      ("top_predictions", JArr tops)]) 200))%py.

(** [POST /predict]; the argument is [request.files]. *)
Definition predict (request_files : list (string * list Byte.byte)) : M response :=
  match assoc "frame" request_files with
  | None => ret (Json (JObj [("error", JStr "missing frame")]) 400)
  | Some img_bytes =>
      (called Call_imdecode ;;;
       img <- lift (imdecode img_bytes) ;;
       match img with
       | None => ret (Json (JObj [("error", JStr "invalid image")]) 400)
       | Some img =>
           landmarks <- extract_landmarks img ;;
           match landmarks with
           | None =>
               ret (Json (JObj [("prediction", JNull);
                                ("message", JStr "no hand detected")]) 200)
           | Some df =>
               try_except (classify df)
                 (fun e => ret (Json (JObj [("error", JStr (exn_str e))]) 500))
           end
       end)%py
  end.

End Service.

(* ================================================================== *)
(** ** The static route ([frontend_static] of [app.py]) *)

Definition allowed : list string := ["index.html"; "script.js"; "style.css"].

(** [s.startswith(p)] *)
Definition startswith (p s : string) : bool := String.prefix p s.

(** [sub in s] *)
Fixpoint contains (sub s : string) : bool :=
  match s with
  | EmptyString => String.prefix sub EmptyString
  | String _ rest => String.prefix sub s || contains sub rest
  end.

Definition not_found : response := Json (JObj [("error", JStr "Not found")]) 404.

(** [frontend_isdir] is [os.path.isdir(FRONTEND_DIR)]. *)
Definition frontend_static (FRONTEND_DIR : string) (frontend_isdir : bool)
    (path : string) : response :=
  if negb frontend_isdir then not_found
  else if existsb (String.eqb path) allowed then SendFromDirectory FRONTEND_DIR path
  else if startswith "assets/" path && negb (contains ".." path)
       then SendFromDirectory FRONTEND_DIR path
  else not_found.

(* ================================================================== *)
(** ** The trainer ([train_model.py]) *)

(** A line of [asl_landmarks.csv]. *)
Record Row : Type := mkRow { features : list Q; label : string }.

Definition count_label (l : string) (labels : list string) : nat :=
  count_occ string_dec labels l.

(** [series.value_counts()]: every distinct label with its number of rows.
    (pandas orders the entries by count; the trainer only takes the
    minimum, filters by count and tests membership.) *)
Definition value_counts (labels : list string) : list (string * nat) :=
  map (fun l => (l, count_label l labels)) (nodup string_dec labels).

(** [series.min()]; an empty series has no minimum (pandas gives [nan],
    which compares false with everything). *)
Fixpoint series_min (counts : list (string * nat)) : option nat :=
  match counts with
  | [] => None
  | (_, c) :: rest =>
      match series_min rest with
      | None => Some c
      | Some m => Some (Nat.min c m)
      end
  end.

Definition MIN_SAMPLES_PER_CLASS : nat := 10.

Definition rare_classes_of (class_counts : list (string * nat)) : list string :=
  map fst (filter (fun kc => (snd kc <? MIN_SAMPLES_PER_CLASS)%nat) class_counts).

(** [df[~df["label"].isin(rare_classes)]] *)
Definition drop_rare (rare_classes : list string) (df : list Row) : list Row :=
  filter (fun r => negb (existsb (String.eqb (label r)) rare_classes)) df.

(** Lines 57-61: the fold count, from the series bound to [class_counts]. *)
Definition cv_folds_of (class_counts : list (string * nat)) : nat :=
  let cv_folds := 5 in
  match series_min class_counts with
  | Some m => if (m <? cv_folds)%nat then Nat.max 2 m else cv_folds
  | None => cv_folds
  end.

Record TrainerRun : Type := mkRun {
  run_rare_classes : list string;
  run_df : list Row;          (* the frame after filtering *)
  run_cv_folds : nat
}.

(** The script up to the cross-validation call.  [class_counts] is bound
    once, on the frame as loaded, and is the series read at line 58. *)
Definition train_model (df : list Row) : TrainerRun :=
  let class_counts := value_counts (map label df) in
  let rare_classes := rare_classes_of class_counts in
  let df' := match rare_classes with
             | [] => df
             | _ => drop_rare rare_classes df
             end in
  mkRun rare_classes df' (cv_folds_of class_counts).

(* ================================================================== *)
(** ** A stable [argsort]

    numpy's scalar introsort finishes every run of at most 16 elements by
    insertion, so on such an array equal values stay in index order.  This
    instance of the contract is that sort. *)

Fixpoint insert_index (v : list Q) (i : nat) (l : list nat) : list nat :=
  match l with
  | [] => [i]
  | j :: rest =>
      if Qltb (nth j v 0%Q) (nth i v 0%Q) then j :: insert_index v i rest
      else i :: j :: rest
  end.

Definition argsort_stable (v : list Q) : list nat :=
  fold_right (insert_index v) [] (seq 0 (List.length v)).

(* ================================================================== *)
(** ** Vocabulary of the statements *)

(** The frame built from a hand: raw coordinates under the fixed names. *)
Definition raw_frame (h : HandLandmarks) : DataFrame :=
  mkDataFrame feature_names [coords_of (landmark h)].

(** A request whose frame decodes to an image with [h] as the first
    detectable hand. *)
Definition hand_detected {image : Type}
    (imdecode : list Byte.byte -> result (option image))
    (cvtColor_BGR2RGB : image -> image)
    (detectable_hands : image -> list HandLandmarks)
    (request_files : list (string * list Byte.byte)) (h : HandLandmarks) : Prop :=
  exists img_bytes img others,
    assoc "frame" request_files = Some img_bytes /\
    imdecode img_bytes = Ok (Some img) /\
    detectable_hands (cvtColor_BGR2RGB img) = h :: others.

(** [r] is the first index of [v] that holds its maximum. *)
Definition is_first_max (v : list Q) (r : nat) : Prop :=
  r < List.length v /\
  (forall j, j < List.length v -> (nth j v 0 <= nth r v 0)%Q) /\
  (forall j, j < r -> (nth j v 0 < nth r v 0)%Q).

(** The two bodies [predict] sends with status 200 after classification,
    and an entry of [top_predictions]. *)
Definition top_json (classes : list string) (probs : list Q) (i : nat) : json :=
  JObj [("label", JStr (nth i classes "")); ("confidence", JNum (nth i probs 0%Q))].

Definition accepted (best_label : string) (best_prob : Q) (tops : list json) : response :=
  Json (JObj [("prediction", JStr best_label);
              ("confidence", JNum best_prob);
              ("top_predictions", JArr tops)]) 200.

Definition low_confidence (best_prob : Q) (tops : list json) : response :=
  Json (JObj [("prediction", JNull);
              ("message", JStr ("low confidence (" ++ format_2f best_prob ++ ")")%string);
              ("top_predictions", JArr tops)]) 200.

Definition server_error (e : exn) : response :=
  Json (JObj [("error", JStr (exn_str e))]) 500.

Definition no_hand : response :=
  Json (JObj [("prediction", JNull); ("message", JStr "no hand detected")]) 200.

(** The rows [normalize_landmarks] would produce, flattened like a feature
    row. *)
Definition normalized_coords {fa : FloatArith} (lms : list Landmark) : result (list Q) :=
  match outcome (normalize_landmarks lms) with
  | Ok pairs => Ok (List.concat pairs)
  | Raise e => Raise e
  end.

(** A response of the null-prediction kind: a JSON body whose [prediction]
    is null and which carries a [message] string. *)
Definition is_null_prediction (r : response) : bool :=
  match r with
  | Json body _ =>
      match json_get "prediction" body, json_get "message" body with
      | Some JNull, Some (JStr _) => true
      | _, _ => false
      end
  | SendFromDirectory _ _ => false
  end.

(** The label of the first entry of [top_predictions] in a response. *)
Definition first_top_label (r : response) : option string :=
  match r with
  | Json body _ =>
      match json_get "top_predictions" body with
      | Some (JArr (entry :: _)) =>
          match json_get "label" entry with
          | Some (JStr l) => Some l
          | _ => None
          end
      | _ => None
      end
  | SendFromDirectory _ _ => None
  end.

(** [sub] occurs somewhere inside [s]. *)
Definition has_substring (sub s : string) : Prop :=
  exists before after, s = (before ++ sub ++ after)%string.

(** A dataset with two well-populated classes and one class of 3 rows. *)
Definition lopsided_csv : list Row :=
  repeat (mkRow [] "A") 100 ++ repeat (mkRow [] "B") 100 ++ repeat (mkRow [] "nothing") 3.

(* ================================================================== *)
(** * Properties *)

(** ** Float comparison *)

Lemma Qltb_true (a b : Q) : Qltb a b = true <-> (a < b)%Q.
Proof.
  unfold Qltb. rewrite negb_true_iff. split; intro H.
  - apply Qnot_le_lt. intro Hle. apply Qle_bool_iff in Hle. congruence.
  - destruct (Qle_bool b a) eqn:E; [|reflexivity].
    apply Qle_bool_iff in E. exfalso. exact (Qlt_not_le _ _ H E).
Qed.

Lemma Qltb_false (a b : Q) : Qltb a b = false <-> (b <= a)%Q.
Proof.
  unfold Qltb. rewrite negb_false_iff. apply Qle_bool_iff.
Qed.

(** ** IEEE 754 subtraction *)

Lemma round_binary64_self (x : Q) : (round_binary64 (x - x) == 0)%Q.
Proof.
  unfold round_binary64.
  assert (H : Qnum (x - x) = 0%Z).
  { destruct x as [n d]. unfold Qminus, Qplus, Qopp. cbn [Qnum Qden]. ring. }
  rewrite H. reflexivity.
Qed.

Definition binary64 : FloatArith :=
  {| float_sub := fun x y => round_binary64 (x - y);
     float_sub_self := round_binary64_self |}.

(** ** The stable [argsort] meets the contract *)

Section StableArgsort.
Variable v : list Q.

Let le_at (i j : nat) : Prop := (nth i v 0 <= nth j v 0)%Q.

Lemma insert_index_perm (i : nat) (l : list nat) :
  Permutation (insert_index v i l) (i :: l).
Proof.
  induction l as [|j rest IH]; simpl; [reflexivity|].
  destruct (Qltb (nth j v 0%Q) (nth i v 0%Q)); [|reflexivity].
  rewrite IH. apply perm_swap.
Qed.

Lemma insert_index_sorted (i : nat) (l : list nat) :
  StronglySorted le_at l -> StronglySorted le_at (insert_index v i l).
Proof.
  induction 1 as [|j rest Hs IH Hall]; simpl.
  - constructor; constructor.
  - destruct (Qltb (nth j v 0%Q) (nth i v 0%Q)) eqn:E.
    + constructor; [exact IH|].
      apply (Permutation_Forall (Permutation_sym (insert_index_perm i rest))).
      constructor; [|exact Hall].
      apply Qltb_true in E. apply Qlt_le_weak, E.
    + apply Qltb_false in E.
      constructor; [constructor; assumption|].
      constructor; [exact E|].
      eapply Forall_impl; [|exact Hall].
      intros k Hk. unfold le_at in *. eapply Qle_trans; eassumption.
Qed.

Lemma argsort_stable_perm :
  Permutation (argsort_stable v) (seq 0 (List.length v)).
Proof.
  unfold argsort_stable. induction (seq 0 (List.length v)) as [|i l IH]; simpl.
  - reflexivity.
  - rewrite insert_index_perm. constructor. exact IH.
Qed.

Lemma argsort_stable_sorted : StronglySorted le_at (argsort_stable v).
Proof.
  unfold argsort_stable. induction (seq 0 (List.length v)) as [|i l IH]; simpl.
  - constructor.
  - apply insert_index_sorted, IH.
Qed.
End StableArgsort.

Definition numpy_small : ArgSort :=
  {| argsort := argsort_stable;
     argsort_perm := argsort_stable_perm;
     argsort_sorted := argsort_stable_sorted |}.

(** ** The monad on straight-line code *)

Lemma bind_ret {A B} (a : A) (f : A -> M B) : bind (ret a) f = f a.
Proof. unfold bind, ret. destruct (f a); reflexivity. Qed.

Lemma bind_lift_ok {A B} (a : A) (f : A -> M B) : bind (lift (Ok a)) f = f a.
Proof. apply bind_ret. Qed.

Lemma bind_lift_raise {A B} (e : exn) (f : A -> M B) :
  bind (lift (Raise e)) f = ([], Raise e).
Proof. reflexivity. Qed.

Lemma bind_called {B} (c : call) (k : M B) :
  bind (called c) (fun _ => k) = (c :: trace k, outcome k).
Proof. unfold bind, called, trace, outcome. destruct k; reflexivity. Qed.

Lemma trace_bind {A B} (m : M A) (f : A -> M B) :
  trace (bind m f) =
  trace m ++ match outcome m with Ok a => trace (f a) | Raise _ => [] end.
Proof.
  destruct m as [t [a|e]]; unfold bind, trace, outcome; simpl.
  - destruct (f a); reflexivity.
  - symmetry; apply app_nil_r.
Qed.

Create Rewrite HintDb py_step.
#[export] Hint Rewrite @bind_called @bind_lift_ok @bind_ret : py_step.

(** Run the handler up to the next call whose result is not known yet. *)
Ltac py_step := autorewrite with py_step.

(** A handler that returns makes the whole [try] statement return. *)
Lemma try_except_returns {A} (m : M A) (h : exn -> A) :
  exists a, outcome (try_except m (fun e => ret (h e))) = Ok a.
Proof.
  destruct m as [t [a|e]]; simpl; eauto.
Qed.

(** ** The encoder *)

Lemma coords_of_length (lms : list Landmark) :
  List.length (coords_of lms) = 2 * List.length lms.
Proof. induction lms as [|lm rest IH]; simpl; [reflexivity | rewrite IH; lia]. Qed.

Lemma coords_of_nth (lms : list Landmark) (i : nat) (lm : Landmark) :
  nth_error lms i = Some lm ->
  nth_error (coords_of lms) (2 * i) = Some (lm_x lm) /\
  nth_error (coords_of lms) (2 * i + 1) = Some (lm_y lm).
Proof.
  revert i. induction lms as [|l0 rest IH]; intros [|i] H; simpl in H; try discriminate.
  - injection H as ->. split; reflexivity.
  - replace (2 * S i) with (S (S (2 * i))) by lia.
    replace (S (S (2 * i)) + 1) with (S (S (2 * i + 1))) by lia.
    simpl. apply IH, H.
Qed.



Lemma encode_21 (h : HandLandmarks) :
  List.length (landmark h) = 21 -> encode h = Ok (raw_frame h).
Proof.
  intro H. unfold encode, pd_DataFrame. simpl.
  rewrite coords_of_length, H. reflexivity.
Qed.

Lemma encode_other (h : HandLandmarks) :
  List.length (landmark h) <> 21 -> exists e, encode h = Raise e.
Proof.
  intro H. unfold encode, pd_DataFrame. cbn [find].
  rewrite coords_of_length.
  destruct (Nat.eqb_spec (2 * List.length (landmark h)) (List.length feature_names)) as [E|E].
  - exfalso. apply H. change (List.length feature_names) with 42 in E. lia.
  - cbn [negb]. eauto.
Qed.

Section ExtractFacts.
Variable image : Type.
Variable cvtColor_BGR2RGB : image -> image.
Variable detectable_hands : image -> list HandLandmarks.

Lemma extract_none (img : image) :
  detectable_hands (cvtColor_BGR2RGB img) = [] ->
  extract_landmarks cvtColor_BGR2RGB detectable_hands img =
  ([Call_extract_landmarks; Call_hands_process], Ok None).
Proof.
  intro H. unfold extract_landmarks, hands_process. rewrite H. reflexivity.
Qed.

Lemma extract_first (img : image) (h : HandLandmarks) (others : list HandLandmarks) :
  detectable_hands (cvtColor_BGR2RGB img) = h :: others ->
  extract_landmarks cvtColor_BGR2RGB detectable_hands img =
  ([Call_extract_landmarks; Call_hands_process],
   match encode h with Ok df => Ok (Some df) | Raise e => Raise e end).
Proof.
  intro H. unfold extract_landmarks, hands_process. rewrite H. simpl.
  destruct (encode h); reflexivity.
Qed.
End ExtractFacts.

(** ** [np.argmax] returns the first index holding the maximum *)

Lemma argmax_from_inv (l pre : list Q) (best : nat) :
  best < List.length pre ->
  (forall j, j < List.length pre -> (nth j pre 0 <= nth best pre 0)%Q) ->
  (forall j, j < best -> (nth j pre 0 < nth best pre 0)%Q) ->
  is_first_max (pre ++ l) (argmax_from (List.length pre) best (nth best pre 0%Q) l).
Proof.
  revert pre best.
  induction l as [|x rest IH]; intros pre best Hb Hmax Hfirst; simpl.
  - rewrite app_nil_r. repeat split; assumption.
  - assert (Hlen : List.length (pre ++ [x]) = S (List.length pre))
      by (rewrite length_app; simpl; lia).
    assert (Hx : nth (List.length pre) (pre ++ [x]) 0%Q = x)
      by (rewrite app_nth2, Nat.sub_diag by lia; reflexivity).
    replace (pre ++ x :: rest) with ((pre ++ [x]) ++ rest)
      by (rewrite <- app_assoc; reflexivity).
    destruct (Qltb (nth best pre 0%Q) x) eqn:E.
    + apply Qltb_true in E.
      pose proof (IH (pre ++ [x]) (List.length pre)) as IH'.
      rewrite Hlen, Hx in IH'. apply IH'.
      * lia.
      * intros j Hj.
        destruct (Nat.eq_dec j (List.length pre)) as [->|Hne].
        -- rewrite Hx. apply Qle_refl.
        -- rewrite app_nth1 by lia. apply Qlt_le_weak.
           eapply Qle_lt_trans; [apply Hmax; lia | exact E].
      * intros j Hj. rewrite app_nth1 by lia.
        eapply Qle_lt_trans; [apply Hmax; lia | exact E].
    + apply Qltb_false in E.
      pose proof (IH (pre ++ [x]) best) as IH'.
      rewrite Hlen, (app_nth1 pre [x] 0%Q Hb) in IH'. apply IH'.
      * lia.
      * intros j Hj.
        destruct (Nat.eq_dec j (List.length pre)) as [->|Hne].
        -- rewrite Hx. exact E.
        -- rewrite app_nth1 by lia. apply Hmax. lia.
      * intros j Hj. rewrite app_nth1 by lia. apply Hfirst, Hj.
Qed.

Lemma np_argmax_spec (probs : list Q) :
  probs <> [] -> exists r, np_argmax probs = Ok r /\ is_first_max probs r.
Proof.
  destruct probs as [|x rest]; [congruence|]. intros _.
  exists (argmax_from 1 0 x rest). split; [reflexivity|].
  apply (argmax_from_inv rest [x] (best := 0)); simpl.
  - lia.
  - intros j Hj. replace j with 0 by lia. apply Qle_refl.
  - intros j Hj. lia.
Qed.

Lemma np_index_ok {A} (a : list A) (i : nat) (d : A) :
  i < List.length a -> np_index a i = Ok (nth i a d).
Proof.
  intro H. unfold np_index.
  rewrite (nth_error_nth' a d H). reflexivity.
Qed.

(** ** The last three of an ascending arrangement *)

Lemma last_n_incl {A} (n : nat) (l : list A) (x : A) : In x (last_n n l) -> In x l.
Proof.
  unfold last_n. intro H.
  rewrite <- (firstn_skipn (List.length l - n) l). apply in_or_app. right. exact H.
Qed.

Lemma last_n_3_split {A} (l : list A) :
  3 <= List.length l ->
  exists pre a b c, l = pre ++ [a; b; c] /\ last_n 3 l = [a; b; c].
Proof.
  intro H. unfold last_n.
  pose proof (firstn_skipn (List.length l - 3) l) as Hsplit.
  pose proof (length_skipn (List.length l - 3) l) as Hlen.
  destruct (skipn (List.length l - 3) l) as [|a [|b [|c [|d t]]]] eqn:E;
    simpl in Hlen; try lia.
  exists (firstn (List.length l - 3) l), a, b, c. split; [symmetry; exact Hsplit | reflexivity].
Qed.

Lemma sorted_last_three {A} (R : A -> A -> Prop) (pre : list A) (a b c : A) :
  StronglySorted R (pre ++ [a; b; c]) ->
  R a b /\ R b c /\ Forall (fun i => R i c) (pre ++ [a; b]).
Proof.
  induction pre as [|p pre IH]; simpl; intro H.
  - inversion H as [|? ? Hs Ha]; subst.
    inversion Hs as [|? ? Hs' Hb]; subst.
    inversion Ha as [|? ? Hab Ha']; subst.
    inversion Ha' as [|? ? Hac _]; subst.
    inversion Hb as [|? ? Hbc _]; subst.
    repeat split; try assumption. repeat constructor; assumption.
  - inversion H as [|? ? Hs Hp]; subst.
    destruct (IH Hs) as (Hab & Hbc & Hall).
    repeat split; try assumption.
    constructor; [|exact Hall].
    rewrite Forall_forall in Hp. apply Hp.
    apply in_or_app. right. simpl. auto.
Qed.

(** ** The request handler, path by path *)

Section ServiceFacts.
Variable image : Type.
Variable imdecode : list Byte.byte -> result (option image).
Variable cvtColor_BGR2RGB : image -> image.
Variable detectable_hands : image -> list HandLandmarks.
Variable model : Model.
Context {np : ArgSort}.

Lemma argsort_in_range (probs : list Q) (i : nat) :
  In i (argsort probs) -> i < List.length probs.
Proof.
  intro H. apply (Permutation_in _ (argsort_perm probs)) in H.
  apply in_seq in H. lia.
Qed.

Lemma argsort_length (probs : list Q) :
  List.length (argsort probs) = List.length probs.
Proof.
  rewrite (Permutation_length (argsort_perm probs)). apply length_seq.
Qed.

Lemma mapM_top_entry (probs : list Q) (idxs : list nat) :
  List.length (classes_ model) = List.length probs ->
  Forall (fun i => i < List.length probs) idxs ->
  mapM (top_entry model probs) idxs =
  ([], Ok (map (top_json (classes_ model) probs) idxs)).
Proof.
  intros Hlen. induction 1 as [|i rest Hi _ IH]; simpl; [reflexivity|].
  unfold top_entry at 1.
  rewrite (np_index_ok (classes_ model) "") by lia.
  rewrite bind_lift_ok.
  rewrite (np_index_ok probs 0%Q) by lia.
  rewrite bind_lift_ok, bind_ret, IH. reflexivity.
Qed.

Lemma top_predictions_ok (probs : list Q) :
  List.length (classes_ model) = List.length probs ->
  top_predictions model probs =
  ([], Ok (map (top_json (classes_ model) probs) (rev (last_n 3 (argsort probs))))).
Proof.
  intro Hlen. apply mapM_top_entry; [exact Hlen|].
  apply Forall_forall. intros i Hi.
  apply in_rev, last_n_incl in Hi. apply argsort_in_range, Hi.
Qed.

(** The [try] body when the classifier answers with a row of
    probabilities, one per class. *)
Lemma classify_ok (df : DataFrame) (probs : list Q) (more : list (list Q)) :
  predict_proba model df = Ok (probs :: more) ->
  probs <> [] ->
  List.length (classes_ model) = List.length probs ->
  exists best_idx,
    np_argmax probs = Ok best_idx /\
    is_first_max probs best_idx /\
    let best_label := nth best_idx (classes_ model) "" in
    let best_prob := nth best_idx probs 0%Q in
    let tops := map (top_json (classes_ model) probs)
                    (rev (last_n 3 (argsort probs))) in
    classify model df =
    ([Call_predict_proba],
     Ok (if Qltb best_prob confidence_threshold
         then low_confidence best_prob tops
         else accepted best_label best_prob tops)).
Proof.
  intros Hp Hne Hlen.
  destruct (np_argmax_spec Hne) as (best_idx & Harg & Hmax).
  exists best_idx. split; [exact Harg|]. split; [exact Hmax|].
  destruct Hmax as (Hlt & _).
  unfold classify. rewrite bind_called, Hp, bind_lift_ok.
  change (np_index (probs :: more) 0) with (Ok (A:=list Q) probs).
  rewrite bind_lift_ok, Harg, bind_lift_ok.
  rewrite (np_index_ok (classes_ model) "") by lia.
  rewrite bind_lift_ok.
  rewrite (np_index_ok probs 0%Q) by lia.
  rewrite bind_lift_ok.
  rewrite top_predictions_ok by exact Hlen.
  cbn zeta.
  destruct (Qltb (nth best_idx probs 0%Q) confidence_threshold); reflexivity.
Qed.

Lemma classify_raise (df : DataFrame) (e : exn) :
  predict_proba model df = Raise e ->
  classify model df = ([Call_predict_proba], Raise e).
Proof.
  intro H. unfold classify. rewrite bind_called, H. reflexivity.
Qed.

(** Everything [predict] does once a 21-point hand has been found. *)
Lemma predict_hand_detected (request_files : list (string * list Byte.byte))
    (h : HandLandmarks) :
  hand_detected imdecode cvtColor_BGR2RGB detectable_hands request_files h ->
  List.length (landmark h) = 21 ->
  let handled :=
    try_except (classify model (raw_frame h)) (fun e => ret (server_error e)) in
  predict imdecode cvtColor_BGR2RGB detectable_hands model request_files =
  (Call_imdecode :: Call_extract_landmarks :: Call_hands_process :: trace handled,
   outcome handled).
Proof.
  intros (img_bytes & img & others & Hf & Hd & Hh) H21. cbv zeta.
  unfold predict. rewrite Hf, Hd. py_step.
  rewrite (extract_first _ _ _ Hh), (encode_21 _ H21).
  unfold bind, trace, outcome, server_error.
  destruct (try_except _ _) as [t r]. reflexivity.
Qed.

End ServiceFacts.

(** ** Which calls a request makes *)

Section Traces.
Variable image : Type.
Variable imdecode : list Byte.byte -> result (option image).
Variable cvtColor_BGR2RGB : image -> image.
Variable detectable_hands : image -> list HandLandmarks.
Variable model : Model.
Context {np : ArgSort}.

Lemma trace_lift_bind {A B} (r : result A) (f : A -> M B) :
  (forall a, trace (f a) = []) -> trace (bind (lift r) f) = [].
Proof.
  intro H. rewrite trace_bind. destruct r as [a|e]; simpl; [apply H | reflexivity].
Qed.

Lemma trace_top_entry (probs : list Q) (i : nat) :
  trace (top_entry model probs i) = [].
Proof.
  unfold top_entry. apply trace_lift_bind. intro label.
  apply trace_lift_bind. reflexivity.
Qed.

Lemma trace_mapM_top_entry (probs : list Q) (idxs : list nat) :
  trace (mapM (top_entry model probs) idxs) = [].
Proof.
  induction idxs as [|i rest IH]; simpl; [reflexivity|].
  rewrite trace_bind, trace_top_entry. simpl.
  destruct (outcome (top_entry model probs i)); [|reflexivity].
  rewrite trace_bind, IH. simpl.
  destruct (outcome (mapM (top_entry model probs) rest)); reflexivity.
Qed.

Lemma trace_classify (df : DataFrame) :
  trace (classify model df) = [Call_predict_proba].
Proof.
  unfold classify. rewrite bind_called. unfold trace at 1. simpl. f_equal.
  repeat (apply trace_lift_bind; intro).
  match goal with |- context [Qltb ?a ?b] => destruct (Qltb a b) end;
    rewrite trace_bind; unfold top_predictions;
    rewrite trace_mapM_top_entry; simpl;
    match goal with |- context [outcome ?m] => destruct (outcome m) end; reflexivity.
Qed.

Lemma trace_extract_landmarks (img : image) :
  trace (extract_landmarks cvtColor_BGR2RGB detectable_hands img) =
  [Call_extract_landmarks; Call_hands_process].
Proof.
  destruct (detectable_hands (cvtColor_BGR2RGB img)) as [|h others] eqn:E.
  - rewrite (extract_none _ _ _ E). reflexivity.
  - rewrite (extract_first _ _ _ E). reflexivity.
Qed.

(** The only call sequences a request can produce. *)
Lemma predict_trace_cases (request_files : list (string * list Byte.byte)) :
  In (trace (predict imdecode cvtColor_BGR2RGB detectable_hands model request_files))
     [ [];
       [Call_imdecode];
       [Call_imdecode; Call_extract_landmarks; Call_hands_process];
       [Call_imdecode; Call_extract_landmarks; Call_hands_process;
        Call_predict_proba] ].
Proof.
  unfold predict.
  destruct (assoc "frame" request_files) as [img_bytes|]; [|simpl; auto].
  rewrite bind_called. unfold trace at 1. cbn [fst].
  destruct (imdecode img_bytes) as [[img|]|e]; [|simpl; auto|simpl; auto].
  rewrite bind_lift_ok, trace_bind, trace_extract_landmarks.
  destruct (outcome (extract_landmarks _ _ img)) as [[df|]|e]; simpl; auto.
  pose proof (trace_classify df) as Hc.
  destruct (classify model df) as [t [r|e]]; simpl in *; subst t; simpl; auto.
Qed.

Lemma predict_never_normalizes (request_files : list (string * list Byte.byte)) :
  ~ In Call_normalize_landmarks
      (trace (predict imdecode cvtColor_BGR2RGB detectable_hands model request_files)).
Proof.
  pose proof (predict_trace_cases request_files) as H. simpl in H.
  intro Hin.
  repeat (destruct H as [H|H]; [rewrite <- H in Hin; simpl in Hin; intuition discriminate|]).
  exact H.
Qed.
End Traces.

(* ================================================================== *)
(** * Sample deployment

    A small concrete instance of the parameters, used to exercise the
    statements below. *)

Module Sample.

(** Images are identified by a number. *)
Definition image : Type := nat.

(** Bytes starting with [0xff] decode, the image being named by their
    count; an empty buffer makes the decoder raise. *)
Definition imdecode (b : list Byte.byte) : result (option image) :=
  match b with
  | [] => Raise (Exception "cv2.error" "(-215:Assertion failed) !buf.empty() in function 'imdecode_'")
  | Byte.xff :: _ => Ok (Some (List.length b))
  | _ => Ok None
  end.

Definition cvtColor_BGR2RGB (img : image) : image := img.

Definition point (i : nat) : Landmark :=
  mkLandmark (Z.of_nat i # 32) (Z.of_nat (i + 1) # 64) 0.

Definition open_hand : HandLandmarks := mkHand (map point (seq 1 21)).
Definition fist : HandLandmarks := mkHand (map point (seq 5 21)).

(** Image 1 shows no hand, image 2 one hand, any other image two. *)
Definition detectable_hands (img : image) : list HandLandmarks :=
  match img with
  | 1 => []
  | 2 => [open_hand]
  | _ => [open_hand; fist]
  end.

Definition blob : list Byte.byte := [Byte.x00; Byte.x01].
Definition photo_no_hand : list Byte.byte := [Byte.xff].
Definition photo_one_hand : list Byte.byte := [Byte.xff; Byte.xd8].
Definition photo_two_hands : list Byte.byte := [Byte.xff; Byte.xd8; Byte.xff].

Definition upload (b : list Byte.byte) : list (string * list Byte.byte) :=
  [("frame", b)].

Definition confident : Model :=
  mkModel ["A"; "B"; "C"] (fun _ => Ok [[23#25; 1#20; 3#100]%Q]).

Definition unsure : Model :=
  mkModel ["A"; "B"; "C"; "D"] (fun _ => Ok [[1#4; 1#4; 1#4; 1#4]%Q]).

Definition tied : Model :=
  mkModel ["A"; "B"; "C"] (fun _ => Ok [[1#2; 1#2; 0]%Q]).

Definition broken : Model :=
  mkModel ["A"; "B"; "C"]
    (fun _ => Raise (Exception "ValueError"
       "X has 42 features, but RandomForestClassifier is expecting 63 features as input.")).

Definition serve (m : Model) (request_files : list (string * list Byte.byte))
  : M response :=
  predict (np := numpy_small) imdecode cvtColor_BGR2RGB detectable_hands m request_files.

Lemma one_hand_detected :
  hand_detected imdecode cvtColor_BGR2RGB detectable_hands
    (upload photo_one_hand) open_hand.
Proof. exists photo_one_hand, 2, []. repeat split. Qed.

Lemma two_hands_first_detected :
  hand_detected imdecode cvtColor_BGR2RGB detectable_hands
    (upload photo_two_hands) open_hand.
Proof. exists photo_two_hands, 3, [fist]. repeat split. Qed.

End Sample.

(* ================================================================== *)
(** * The feature encoder *)



(** C9.  Two runs of the encoder that are handed the same landmark set
    give the same result, whatever the images, the colour conversion or the
    detector of each run; for a 21-point set that result is a 42-value
    row. *)
Theorem encoding_deterministic
    (image1 image2 : Type)
    (cvt1 : image1 -> image1) (cvt2 : image2 -> image2)
    (detect1 : image1 -> list HandLandmarks) (detect2 : image2 -> list HandLandmarks)
    (img1 : image1) (img2 : image2)
    (h : HandLandmarks) (others1 others2 : list HandLandmarks) :
  detect1 (cvt1 img1) = h :: others1 ->
  detect2 (cvt2 img2) = h :: others2 ->
  extract_landmarks cvt1 detect1 img1 = extract_landmarks cvt2 detect2 img2 /\
  (List.length (landmark h) = 21 ->
   exists coords,
     List.length coords = 42 /\
     outcome (extract_landmarks cvt1 detect1 img1)
       = Ok (Some (mkDataFrame feature_names [coords])) /\
     outcome (extract_landmarks cvt2 detect2 img2)
       = Ok (Some (mkDataFrame feature_names [coords]))).
Proof.
  intros H1 H2.
  rewrite (extract_first _ _ _ H1), (extract_first _ _ _ H2).
  split; [reflexivity|].
  intro H21. exists (coords_of (landmark h)).
  rewrite (encode_21 _ H21), coords_of_length, H21. repeat split.
Qed.

Lemma encoding_deterministic_witness :
  Sample.detectable_hands (Sample.cvtColor_BGR2RGB 2) = [Sample.open_hand] /\
  Sample.detectable_hands (Sample.cvtColor_BGR2RGB 7) = [Sample.open_hand; Sample.fist] /\
  List.length (landmark Sample.open_hand) = 21 /\
  extract_landmarks Sample.cvtColor_BGR2RGB Sample.detectable_hands 2 =
  extract_landmarks Sample.cvtColor_BGR2RGB Sample.detectable_hands 7 /\
  exists coords,
    List.length coords = 42 /\
    outcome (extract_landmarks Sample.cvtColor_BGR2RGB Sample.detectable_hands 2)
      = Ok (Some (mkDataFrame feature_names [coords])) /\
    outcome (extract_landmarks Sample.cvtColor_BGR2RGB Sample.detectable_hands 7)
      = Ok (Some (mkDataFrame feature_names [coords])).
Proof.
  split; [reflexivity|]. split; [reflexivity|]. split; [reflexivity|].
  destruct (@encoding_deterministic _ _ Sample.cvtColor_BGR2RGB Sample.cvtColor_BGR2RGB
              Sample.detectable_hands Sample.detectable_hands 2 7
              Sample.open_hand [] [Sample.fist] eq_refl eq_refl) as [Hsame H42].
  split; [exact Hsame | exact (H42 eq_refl)].
Defined.

(** The handler consults the model through [classes_] and through the
    answer of [predict_proba] on the frame it is given, nothing else. *)
Lemma classify_ext (np : ArgSort) (m m' : Model) (df : DataFrame) :
  classes_ m' = classes_ m ->
  predict_proba m' df = predict_proba m df ->
  classify m' df = classify m df.
Proof.
  intros Hc Hp. unfold classify, top_predictions, top_entry.
  rewrite Hc, Hp. reflexivity.
Qed.

(** C4.  For a request in which a 21-point hand is detected, the handler
    never calls [normalize_landmarks] and calls the classifier once.  The
    frame it passes to [predict_proba] is the raw one, holding the
    detector's coordinates unchanged (landmark [i] at positions [2i] and
    [2i+1]): an exception [predict_proba] raises on that frame is the one
    reported, and the answer is the same for any two models with the same
    classes whose [predict_proba] agree on that frame, whatever they do on
    other frames.  Unless the wrist sits at the origin that frame is not the
    wrist-relative one. *)
Theorem serve_time_features_are_raw
    (image : Type) (imdecode : list Byte.byte -> result (option image))
    (cvtColor_BGR2RGB : image -> image)
    (detectable_hands : image -> list HandLandmarks)
    (model : Model) (np : ArgSort) (fa : FloatArith)
    (request_files : list (string * list Byte.byte)) (h : HandLandmarks) :
  hand_detected imdecode cvtColor_BGR2RGB detectable_hands request_files h ->
  List.length (landmark h) = 21 ->
  let served := predict imdecode cvtColor_BGR2RGB detectable_hands model request_files in
  let handled :=
    try_except (classify model (raw_frame h)) (fun e => ret (server_error e)) in
  ~ In Call_normalize_landmarks (trace served) /\
  trace served = [Call_imdecode; Call_extract_landmarks; Call_hands_process;
                  Call_predict_proba] /\
  served = (Call_imdecode :: Call_extract_landmarks :: Call_hands_process :: trace handled,
            outcome handled) /\
  (forall e, predict_proba model (raw_frame h) = Raise e ->
             outcome served = Ok (Json (JObj [("error", JStr (exn_str e))]) 500)) /\
  (forall model',
     classes_ model' = classes_ model ->
     predict_proba model' (raw_frame h) = predict_proba model (raw_frame h) ->
     predict imdecode cvtColor_BGR2RGB detectable_hands model' request_files = served) /\
  rows (raw_frame h) = [coords_of (landmark h)] /\
  (forall i lm, nth_error (landmark h) i = Some lm ->
     nth_error (coords_of (landmark h)) (2 * i) = Some (lm_x lm) /\
     nth_error (coords_of (landmark h)) (2 * i + 1) = Some (lm_y lm)) /\
  (forall wrist normalized,
     nth_error (landmark h) 0 = Some wrist ->
     ~ (lm_x wrist == 0 /\ lm_y wrist == 0)%Q ->
     normalized_coords (landmark h) = Ok normalized ->
     ~ Forall2 Qeq (coords_of (landmark h)) normalized).
Proof.
  intros Hd H21 served handled.
  assert (Hserved : served =
            (Call_imdecode :: Call_extract_landmarks :: Call_hands_process :: trace handled,
             outcome handled))
    by (apply predict_hand_detected; assumption).
  split. { apply predict_never_normalizes. }
  split.
  { rewrite Hserved. unfold trace at 1. cbn [fst]. subst handled.
    pose proof (trace_classify model (raw_frame h)) as Ht.
    destruct (classify model (raw_frame h)) as [t [r|e]];
      unfold trace in *; simpl in *; subst t; reflexivity. }
  split. { exact Hserved. }
  split.
  { intros e He. rewrite Hserved. subst handled.
    rewrite (classify_raise _ _ He). reflexivity. }
  split.
  { intros model' Hc Hp. rewrite Hserved. subst handled.
    rewrite (predict_hand_detected model' Hd H21), (classify_ext np _ _ _ Hc Hp).
    reflexivity. }
  split. { reflexivity. }
  split. { intros i lm Hi. apply coords_of_nth, Hi. }
  intros wrist normalized Hw Hnz Hn Hall.
  destruct (landmark h) as [|w rest]; [discriminate|].
  injection Hw as ->.
  unfold normalized_coords in Hn. simpl in Hn. injection Hn as <-.
  simpl in Hall.
  inversion Hall as [|? ? ? ? Hx Hall']; subst.
  inversion Hall' as [|? ? ? ? Hy _]; subst.
  apply Hnz. split.
  - rewrite Hx. apply float_sub_self.
  - rewrite Hy. apply float_sub_self.
Qed.

Lemma serve_time_features_are_raw_witness :
  hand_detected Sample.imdecode Sample.cvtColor_BGR2RGB Sample.detectable_hands
    (Sample.upload Sample.photo_one_hand) Sample.open_hand /\
  List.length (landmark Sample.open_hand) = 21 /\
  ~ In Call_normalize_landmarks
      (trace (Sample.serve Sample.confident (Sample.upload Sample.photo_one_hand))) /\
  trace (Sample.serve Sample.confident (Sample.upload Sample.photo_one_hand))
  = [Call_imdecode; Call_extract_landmarks; Call_hands_process; Call_predict_proba].
Proof.
  split; [exact Sample.one_hand_detected|]. split; [reflexivity|].
  destruct (@serve_time_features_are_raw _ Sample.imdecode Sample.cvtColor_BGR2RGB
              Sample.detectable_hands Sample.confident numpy_small binary64
              (Sample.upload Sample.photo_one_hand) Sample.open_hand
              Sample.one_hand_detected eq_refl) as (Hnever & Hcalls & _).
  split; [exact Hnever | exact Hcalls].
Defined.

(* ================================================================== *)
(** * The [/predict] endpoint *)

(** The inputs the handler checks itself.  A request without the field
    [frame] gets status 400 and a JSON error; a frame for which the decoder
    returns [None] gets status 400 with body {"error": "invalid image"}, the
    decoder being the only call made; a frame that decodes to an image
    without a hand gets status 200 with
    {"prediction": null, "message": "no hand detected"}. *)
Theorem predict_input_errors
    (image : Type) (imdecode : list Byte.byte -> result (option image))
    (cvtColor_BGR2RGB : image -> image)
    (detectable_hands : image -> list HandLandmarks)
    (model : Model) (np : ArgSort)
    (request_files : list (string * list Byte.byte)) :
  let served := predict imdecode cvtColor_BGR2RGB detectable_hands model request_files in
  (assoc "frame" request_files = None ->
   served = ([], Ok (Json (JObj [("error", JStr "missing frame")]) 400))) /\
  (forall img_bytes,
     assoc "frame" request_files = Some img_bytes ->
     imdecode img_bytes = Ok None ->
     served = ([Call_imdecode], Ok (Json (JObj [("error", JStr "invalid image")]) 400))) /\
  (forall img_bytes img,
     assoc "frame" request_files = Some img_bytes ->
     imdecode img_bytes = Ok (Some img) ->
     detectable_hands (cvtColor_BGR2RGB img) = [] ->
     served = ([Call_imdecode; Call_extract_landmarks; Call_hands_process],
               Ok (Json (JObj [("prediction", JNull);
                               ("message", JStr "no hand detected")]) 200))).
Proof.
  intro served. subst served. unfold predict.
  split; [|split].
  - intros ->. reflexivity.
  - intros img_bytes -> ->. reflexivity.
  - intros img_bytes img -> -> Hnone.
    py_step. rewrite (extract_none _ _ _ Hnone). reflexivity.
Qed.

Lemma predict_input_errors_witness :
  (assoc "frame" [("image", Sample.photo_one_hand)] = None /\
   Sample.serve Sample.confident [("image", Sample.photo_one_hand)]
   = ([], Ok (Json (JObj [("error", JStr "missing frame")]) 400))) /\
  (assoc "frame" (Sample.upload Sample.blob) = Some Sample.blob /\
   Sample.imdecode Sample.blob = Ok None /\
   Sample.serve Sample.confident (Sample.upload Sample.blob)
   = ([Call_imdecode], Ok (Json (JObj [("error", JStr "invalid image")]) 400))) /\
  (assoc "frame" (Sample.upload Sample.photo_no_hand) = Some Sample.photo_no_hand /\
   Sample.imdecode Sample.photo_no_hand = Ok (Some 1) /\
   Sample.detectable_hands (Sample.cvtColor_BGR2RGB 1) = [] /\
   Sample.serve Sample.confident (Sample.upload Sample.photo_no_hand)
   = ([Call_imdecode; Call_extract_landmarks; Call_hands_process],
      Ok (Json (JObj [("prediction", JNull);
                      ("message", JStr "no hand detected")]) 200))).
Proof.
  split; [|split].
  - split; [reflexivity|].
    exact (proj1 (@predict_input_errors _ Sample.imdecode Sample.cvtColor_BGR2RGB
                    Sample.detectable_hands Sample.confident numpy_small
                    [("image", Sample.photo_one_hand)]) eq_refl).
  - split; [reflexivity|]. split; [reflexivity|].
    exact (proj1 (proj2 (@predict_input_errors _ Sample.imdecode Sample.cvtColor_BGR2RGB
                    Sample.detectable_hands Sample.confident numpy_small
                    (Sample.upload Sample.blob))) Sample.blob eq_refl eq_refl).
  - split; [reflexivity|]. split; [reflexivity|]. split; [reflexivity|].
    exact (proj2 (proj2 (@predict_input_errors _ Sample.imdecode Sample.cvtColor_BGR2RGB
                    Sample.detectable_hands Sample.confident numpy_small
                    (Sample.upload Sample.photo_no_hand)))
             Sample.photo_no_hand 1 eq_refl eq_refl eq_refl).
Defined.

(** C3.  The endpoint does not answer every undecodable upload with
    status 400.  A [frame] field holding no bytes at all fails to decode by
    making [cv2.imdecode] raise; the call stands before the [try] block, so
    the exception leaves the handler with the decoder as its only call
    and no JSON answer of the handler's own.  Any other upload the codec
    rejects does get status 400 with {"error": "invalid image"}. *)
Theorem empty_frame_is_not_answered_400
    (image : Type) (codec : list Byte.byte -> option image)
    (cvtColor_BGR2RGB : image -> image)
    (detectable_hands : image -> list HandLandmarks)
    (model : Model) (np : ArgSort) :
  let serve := predict (cv2_imdecode codec) cvtColor_BGR2RGB detectable_hands model in
  assoc "frame" [("frame", @nil Byte.byte)] = Some [] /\
  (exists e, serve [("frame", [])] = ([Call_imdecode], Raise e) /\
             exn_class e = "cv2.error") /\
  (forall r, outcome (serve [("frame", [])]) <> Ok r) /\
  (forall b rest, codec (b :: rest) = None ->
     serve [("frame", b :: rest)]
     = ([Call_imdecode], Ok (Json (JObj [("error", JStr "invalid image")]) 400))).
Proof.
  cbv zeta. split; [reflexivity|]. split; [|split].
  - eexists. split; reflexivity.
  - intros r H. discriminate H.
  - intros b rest Hnone.
    apply (proj1 (proj2 (@predict_input_errors _ (cv2_imdecode codec) cvtColor_BGR2RGB
                           detectable_hands model np [("frame", b :: rest)]))
             (b :: rest)).
    + reflexivity.
    + cbn [cv2_imdecode]. rewrite Hnone. reflexivity.
Qed.

(** C8.  Once a hand has been detected, an exception [e] escaping the
    classification block makes the endpoint answer with status 500 and body
    {"error": str(e)}, the text unchanged; an exception raised by
    [predict_proba] is such an exception. *)
Theorem classification_failure_is_500
    (image : Type) (imdecode : list Byte.byte -> result (option image))
    (cvtColor_BGR2RGB : image -> image)
    (detectable_hands : image -> list HandLandmarks)
    (model : Model) (np : ArgSort)
    (request_files : list (string * list Byte.byte)) (h : HandLandmarks) (e : exn) :
  hand_detected imdecode cvtColor_BGR2RGB detectable_hands request_files h ->
  List.length (landmark h) = 21 ->
  predict_proba model (raw_frame h) = Raise e \/
  outcome (classify model (raw_frame h)) = Raise e ->
  outcome (predict imdecode cvtColor_BGR2RGB detectable_hands model request_files)
  = Ok (Json (JObj [("error", JStr (exn_str e))]) 500).
Proof.
  intros Hd H21 Hraise.
  rewrite (predict_hand_detected model Hd H21). unfold outcome at 1. cbn [snd].
  assert (Hc : outcome (classify model (raw_frame h)) = Raise e).
  { destruct Hraise as [Hp|Hc]; [|exact Hc].
    rewrite (classify_raise _ _ Hp). reflexivity. }
  destruct (classify model (raw_frame h)) as [t r]. simpl in Hc. subst r.
  reflexivity.
Qed.

Lemma classification_failure_is_500_witness :
  hand_detected Sample.imdecode Sample.cvtColor_BGR2RGB Sample.detectable_hands
    (Sample.upload Sample.photo_one_hand) Sample.open_hand /\
  List.length (landmark Sample.open_hand) = 21 /\
  predict_proba Sample.broken (raw_frame Sample.open_hand)
  = Raise (Exception "ValueError"
      "X has 42 features, but RandomForestClassifier is expecting 63 features as input.") /\
  outcome (Sample.serve Sample.broken (Sample.upload Sample.photo_one_hand))
  = Ok (Json (JObj [("error", JStr
      "X has 42 features, but RandomForestClassifier is expecting 63 features as input.")])
      500).
Proof.
  split; [exact Sample.one_hand_detected|]. split; [reflexivity|]. split; [reflexivity|].
  exact (@classification_failure_is_500 _ Sample.imdecode Sample.cvtColor_BGR2RGB
           Sample.detectable_hands Sample.broken numpy_small
           (Sample.upload Sample.photo_one_hand) Sample.open_hand _
           Sample.one_hand_detected eq_refl (or_introl eq_refl)).
Defined.

(** The literal [0.3] lies just below three tenths. *)
Lemma confidence_threshold_le_three_tenths : (confidence_threshold <= 3 # 10)%Q.
Proof. unfold confidence_threshold, Qle. simpl. lia. Qed.

(** C1.  With a hand detected and a row of probabilities returned by the
    classifier (one per class, at least one class), let [best_prob] be the
    largest probability and [best_label] the label of the first class
    holding it.  If [best_prob] is at least the threshold 0.3 the answer is
    status 200 with prediction [best_label] and confidence [best_prob];
    if it is below, the answer is status 200 with prediction null and the
    message "low confidence (p)", [p] being [best_prob] with two decimals.
    No other case exists, whichever class wins. *)
Theorem confidence_threshold_is_hard_cutoff
    (image : Type) (imdecode : list Byte.byte -> result (option image))
    (cvtColor_BGR2RGB : image -> image)
    (detectable_hands : image -> list HandLandmarks)
    (model : Model) (np : ArgSort)
    (request_files : list (string * list Byte.byte)) (h : HandLandmarks)
    (probs : list Q) (more : list (list Q)) :
  hand_detected imdecode cvtColor_BGR2RGB detectable_hands request_files h ->
  List.length (landmark h) = 21 ->
  predict_proba model (raw_frame h) = Ok (probs :: more) ->
  probs <> [] ->
  List.length (classes_ model) = List.length probs ->
  exists best_idx tops,
    is_first_max probs best_idx /\
    let best_label := nth best_idx (classes_ model) "" in
    let best_prob := nth best_idx probs 0%Q in
    let answer :=
      outcome (predict imdecode cvtColor_BGR2RGB detectable_hands model request_files) in
    ((confidence_threshold <= best_prob)%Q /\
     answer = Ok (Json (JObj [("prediction", JStr best_label);
                              ("confidence", JNum best_prob);
                              ("top_predictions", JArr tops)]) 200))
    \/
    ((best_prob < confidence_threshold)%Q /\
     answer = Ok (Json (JObj [("prediction", JNull);
                              ("message",
                               JStr ("low confidence (" ++ format_2f best_prob ++ ")")%string);
                              ("top_predictions", JArr tops)]) 200)).
Proof.
  intros Hd H21 Hp Hne Hlen.
  destruct (classify_ok model _ Hp Hne Hlen) as (best_idx & _ & Hmax & Hc).
  exists best_idx. eexists. split; [exact Hmax|].
  cbv zeta in *.
  rewrite (predict_hand_detected model Hd H21), Hc.
  unfold outcome, try_except. cbn [snd].
  destruct (Qltb (nth best_idx probs 0%Q) confidence_threshold) eqn:E.
  - right. split; [apply Qltb_true, E | reflexivity].
  - left. split; [apply Qltb_false, E | reflexivity].
Qed.

Lemma confidence_threshold_is_hard_cutoff_witness :
  hand_detected Sample.imdecode Sample.cvtColor_BGR2RGB Sample.detectable_hands
    (Sample.upload Sample.photo_one_hand) Sample.open_hand /\
  List.length (landmark Sample.open_hand) = 21 /\
  predict_proba Sample.unsure (raw_frame Sample.open_hand)
    = Ok [[1#4; 1#4; 1#4; 1#4]%Q] /\
  [1#4; 1#4; 1#4; 1#4]%Q <> [] /\
  List.length (classes_ Sample.unsure) = List.length [1#4; 1#4; 1#4; 1#4]%Q /\
  exists tops,
    outcome (Sample.serve Sample.unsure (Sample.upload Sample.photo_one_hand))
    = Ok (Json (JObj [("prediction", JNull);
                      ("message", JStr "low confidence (0.25)");
                      ("top_predictions", JArr tops)]) 200).
Proof.
  split; [exact Sample.one_hand_detected|]. split; [reflexivity|].
  split; [reflexivity|]. split; [discriminate|]. split; [reflexivity|].
  destruct (@confidence_threshold_is_hard_cutoff _ Sample.imdecode
              Sample.cvtColor_BGR2RGB Sample.detectable_hands Sample.unsure numpy_small
              (Sample.upload Sample.photo_one_hand) Sample.open_hand
              [1#4; 1#4; 1#4; 1#4]%Q []
              Sample.one_hand_detected eq_refl eq_refl
              ltac:(discriminate) eq_refl)
    as (best_idx & tops & Hmax & [[_ Hacc] | [_ Hlow]]).
  - exfalso. unfold Sample.serve in *. vm_compute in Hacc. discriminate Hacc.
  - exists tops. unfold Sample.serve.
    destruct Hmax as (Hlt & _ & Hfirst).
    assert (Hb : best_idx = 0).
    { destruct best_idx as [|j]; [reflexivity|].
      exfalso. specialize (Hfirst 0 ltac:(lia)).
      simpl in Hlt.
      destruct j as [|[|[|j]]]; simpl in Hfirst;
        try (unfold Qlt in Hfirst; simpl in Hfirst; lia). }
    subst best_idx. exact Hlow.
Defined.

(** C5, as stated, fails: an image showing two hands, with a classifier that
    is confident about the first of them, is answered with a prediction. *)
Lemma two_hands_get_a_prediction :
  Sample.imdecode Sample.photo_two_hands = Ok (Some 3) /\
  List.length (Sample.detectable_hands (Sample.cvtColor_BGR2RGB 3)) = 2 /\
  exists r,
    outcome (Sample.serve Sample.confident (Sample.upload Sample.photo_two_hands)) = Ok r /\
    json_get "prediction" (match r with Json b _ => b | _ => JNull end) = Some (JStr "A") /\
    is_null_prediction r = false.
Proof.
  split; [reflexivity|]. split; [reflexivity|].
  eexists. split; [reflexivity|]. split; reflexivity.
Qed.

(** C5, amended.  For an image in which zero or more than one hand is
    detectable (all of 21 landmarks), the endpoint does not raise.  With no
    hand it returns {"prediction": null, "message": "no hand detected"} with
    status 200.  With several hands it answers exactly as it would if the
    first of them were the only hand in the image. *)
Theorem zero_or_many_hands
    (image : Type) (imdecode : list Byte.byte -> result (option image))
    (cvtColor_BGR2RGB : image -> image)
    (detectable_hands : image -> list HandLandmarks)
    (model : Model) (np : ArgSort)
    (request_files : list (string * list Byte.byte))
    (img_bytes : list Byte.byte) (img : image) :
  assoc "frame" request_files = Some img_bytes ->
  imdecode img_bytes = Ok (Some img) ->
  List.length (detectable_hands (cvtColor_BGR2RGB img)) <> 1 ->
  Forall (fun h => List.length (landmark h) = 21) (detectable_hands (cvtColor_BGR2RGB img)) ->
  let served := predict imdecode cvtColor_BGR2RGB detectable_hands model request_files in
  (exists r, outcome served = Ok r) /\
  match detectable_hands (cvtColor_BGR2RGB img) with
  | [] => outcome served = Ok (Json (JObj [("prediction", JNull);
                                           ("message", JStr "no hand detected")]) 200) /\
          is_null_prediction (Json (JObj [("prediction", JNull);
                                          ("message", JStr "no hand detected")]) 200) = true
  | first :: _ =>
      served = predict imdecode cvtColor_BGR2RGB (fun _ => [first]) model request_files
  end.
Proof.
  intros Hf Hd Hcount H21 served.
  destruct (detectable_hands (cvtColor_BGR2RGB img)) as [|first others] eqn:E.
  - assert (Hs : served = ([Call_imdecode; Call_extract_landmarks; Call_hands_process],
                           Ok no_hand)).
    { subst served. unfold predict. rewrite Hf, Hd. py_step.
      rewrite (extract_none _ _ _ E). reflexivity. }
    rewrite Hs. split; [eexists; reflexivity|]. split; reflexivity.
  - inversion H21 as [|? ? Hfirst _]; subst.
    assert (D1 : hand_detected imdecode cvtColor_BGR2RGB detectable_hands
                   request_files first)
      by (exists img_bytes, img, others; auto).
    assert (D2 : hand_detected imdecode cvtColor_BGR2RGB (fun _ => [first])
                   request_files first)
      by (exists img_bytes, img, []; auto).
    subst served.
    rewrite (predict_hand_detected model D1 Hfirst).
    rewrite (predict_hand_detected model D2 Hfirst).
    split; [|reflexivity].
    unfold outcome at 1. cbn [snd].
    apply (try_except_returns (classify model (raw_frame first)) server_error).
Qed.

Lemma zero_or_many_hands_witness :
  assoc "frame" (Sample.upload Sample.photo_two_hands) = Some Sample.photo_two_hands /\
  Sample.imdecode Sample.photo_two_hands = Ok (Some 3) /\
  List.length (Sample.detectable_hands (Sample.cvtColor_BGR2RGB 3)) <> 1 /\
  Forall (fun h => List.length (landmark h) = 21)
    (Sample.detectable_hands (Sample.cvtColor_BGR2RGB 3)) /\
  (exists r,
     outcome (Sample.serve Sample.broken (Sample.upload Sample.photo_two_hands)) = Ok r).
Proof.
  split; [reflexivity|]. split; [reflexivity|]. split; [simpl; lia|].
  split; [repeat constructor|].
  exact (proj1 (@zero_or_many_hands _ Sample.imdecode Sample.cvtColor_BGR2RGB
                  Sample.detectable_hands Sample.broken numpy_small
                  (Sample.upload Sample.photo_two_hands) Sample.photo_two_hands 3
                  eq_refl eq_refl ltac:(simpl; lia) ltac:(repeat constructor))).
Defined.

(** C6, as stated, fails when two classes share the top probability: on
    (0.5, 0.5, 0.0) the prediction is the first class, "A", while the list
    starts with "B". *)
Lemma tied_top_list_starts_with_other_label :
  hand_detected Sample.imdecode Sample.cvtColor_BGR2RGB Sample.detectable_hands
    (Sample.upload Sample.photo_one_hand) Sample.open_hand /\
  predict_proba Sample.tied (raw_frame Sample.open_hand) = Ok [[1#2; 1#2; 0]%Q] /\
  exists r body,
    outcome (Sample.serve Sample.tied (Sample.upload Sample.photo_one_hand)) = Ok r /\
    r = Json body 200 /\
    json_get "prediction" body = Some (JStr "A") /\
    first_top_label r = Some "B".
Proof.
  split; [exact Sample.one_hand_detected|]. split; [reflexivity|].
  eexists. eexists. split; [reflexivity|]. split; [reflexivity|]. split; reflexivity.
Qed.

(** C6, amended.  With a hand detected and a model of at least three
    classes, [top_predictions] has exactly three entries in both branches,
    their confidences do not increase along the list, and the first
    confidence equals the top probability; the first label is the predicted
    label whenever no other class reaches the top probability. *)
Theorem top_three_sorted
    (image : Type) (imdecode : list Byte.byte -> result (option image))
    (cvtColor_BGR2RGB : image -> image)
    (detectable_hands : image -> list HandLandmarks)
    (model : Model) (np : ArgSort)
    (request_files : list (string * list Byte.byte)) (h : HandLandmarks)
    (probs : list Q) (more : list (list Q)) :
  hand_detected imdecode cvtColor_BGR2RGB detectable_hands request_files h ->
  List.length (landmark h) = 21 ->
  predict_proba model (raw_frame h) = Ok (probs :: more) ->
  3 <= List.length probs ->
  List.length (classes_ model) = List.length probs ->
  exists best_idx i1 i2 i3,
    is_first_max probs best_idx /\
    let best_label := nth best_idx (classes_ model) "" in
    let best_prob := nth best_idx probs 0%Q in
    let tops := map (top_json (classes_ model) probs) [i1; i2; i3] in
    outcome (predict imdecode cvtColor_BGR2RGB detectable_hands model request_files)
    = Ok (if Qltb best_prob confidence_threshold
          then low_confidence best_prob tops
          else accepted best_label best_prob tops) /\
    List.length tops = 3 /\
    (nth i3 probs 0 <= nth i2 probs 0)%Q /\
    (nth i2 probs 0 <= nth i1 probs 0)%Q /\
    (nth i1 probs 0 == best_prob)%Q /\
    ((forall j, j < List.length probs -> j <> best_idx ->
        (nth j probs 0 < best_prob)%Q) ->
     i1 = best_idx /\ nth i1 (classes_ model) "" = best_label).
Proof.
  intros Hd H21 Hp H3 Hlen.
  assert (Hne : probs <> []) by (destruct probs; simpl in H3; [lia | discriminate]).
  destruct (classify_ok model _ Hp Hne Hlen) as (best_idx & _ & Hmax & Hc).
  assert (H3' : 3 <= List.length (argsort probs)) by (rewrite argsort_length; exact H3).
  destruct (last_n_3_split _ H3') as (pre & a & b & c & Hsplit & Hlast).
  exists best_idx, c, b, a. split; [exact Hmax|].
  cbv zeta in *. rewrite Hlast in Hc. simpl rev in Hc.
  rewrite (predict_hand_detected model Hd H21), Hc.
  split.
  { unfold outcome, try_except. reflexivity. }
  split; [reflexivity|].
  pose proof (argsort_sorted probs) as Hs. rewrite Hsplit in Hs.
  destruct (sorted_last_three _ _ _ _ Hs) as (Hab & Hbc & Hall).
  split; [exact Hab|]. split; [exact Hbc|].
  destruct Hmax as (Hlt & Hge & Hfirst).
  assert (Hc_in : In c (argsort probs))
    by (rewrite Hsplit; apply in_or_app; right; simpl; auto).
  assert (Hc_lt : c < List.length probs) by (apply argsort_in_range, Hc_in).
  assert (Hbest_le : (nth best_idx probs 0 <= nth c probs 0)%Q).
  { assert (Hin : In best_idx (argsort probs)).
    { apply (Permutation_in _ (Permutation_sym (argsort_perm probs))).
      apply in_seq. lia. }
    rewrite Hsplit in Hin.
    replace (pre ++ [a; b; c]) with ((pre ++ [a; b]) ++ [c]) in Hin
      by (rewrite <- app_assoc; reflexivity).
    apply in_app_or in Hin. destruct Hin as [Hin|[->|[]]].
    - rewrite Forall_forall in Hall. apply Hall, Hin.
    - apply Qle_refl. }
  split.
  { apply Qle_antisym; [apply Hge, Hc_lt | exact Hbest_le]. }
  intro Huniq.
  assert (Heq : c = best_idx).
  { destruct (Nat.eq_dec c best_idx) as [E|E]; [exact E|].
    exfalso. apply (Qlt_not_le _ _ (Huniq c Hc_lt E)). exact Hbest_le. }
  split; [exact Heq | rewrite Heq; reflexivity].
Qed.

Lemma top_three_sorted_witness :
  hand_detected Sample.imdecode Sample.cvtColor_BGR2RGB Sample.detectable_hands
    (Sample.upload Sample.photo_one_hand) Sample.open_hand /\
  List.length (landmark Sample.open_hand) = 21 /\
  predict_proba Sample.confident (raw_frame Sample.open_hand)
    = Ok [[23#25; 1#20; 3#100]%Q] /\
  3 <= List.length [23#25; 1#20; 3#100]%Q /\
  List.length (classes_ Sample.confident) = List.length [23#25; 1#20; 3#100]%Q /\
  exists i1 i2 i3,
    (nth i3 [23#25; 1#20; 3#100] 0 <= nth i2 [23#25; 1#20; 3#100] 0)%Q /\
    (nth i2 [23#25; 1#20; 3#100] 0 <= nth i1 [23#25; 1#20; 3#100] 0)%Q.
Proof.
  split; [exact Sample.one_hand_detected|]. split; [reflexivity|].
  split; [reflexivity|]. split; [simpl; lia|]. split; [reflexivity|].
  destruct (@top_three_sorted _ Sample.imdecode Sample.cvtColor_BGR2RGB
              Sample.detectable_hands Sample.confident numpy_small
              (Sample.upload Sample.photo_one_hand) Sample.open_hand
              [23#25; 1#20; 3#100]%Q []
              Sample.one_hand_detected eq_refl eq_refl
              ltac:(simpl; lia) eq_refl)
    as (best_idx & i1 & i2 & i3 & _ & _ & _ & H32 & H21 & _).
  exists i1, i2, i3. split; assumption.
Defined.

(* ================================================================== *)
(** * The static route *)

Lemma prefix_spec (p s : string) :
  String.prefix p s = true <-> exists rest, s = (p ++ rest)%string.
Proof.
  revert s. induction p as [|a p IH]; intros s.
  - split; [intros _; exists s; reflexivity | intros _; destruct s; reflexivity].
  - destruct s as [|c s]; simpl.
    + split; [discriminate | intros [rest H]; discriminate].
    + destruct (ascii_dec a c) as [-> | Hne].
      * rewrite IH. split; intros [rest H]; exists rest.
        -- rewrite H. reflexivity.
        -- injection H as H. exact H.
      * split; [discriminate|]. intros [rest H]. injection H as H1 _. congruence.
Qed.

Lemma contains_spec (sub s : string) :
  contains sub s = true <-> has_substring sub s.
Proof.
  unfold has_substring. induction s as [|c s IH].
  - cbn [contains]. rewrite prefix_spec. split.
    + intros [rest H]. exists EmptyString, rest. exact H.
    + intros (before & after & H).
      destruct before as [|b before]; [|discriminate].
      exists after. exact H.
  - cbn [contains]. rewrite orb_true_iff, IH, prefix_spec. split.
    + intros [[rest H] | (before & after & H)].
      * exists EmptyString, rest. exact H.
      * exists (String c before), after. rewrite H. reflexivity.
    + intros (before & after & H).
      destruct before as [|b before].
      * left. exists after. exact H.
      * right. exists before, after. simpl in H. injection H as _ H. exact H.
Qed.

Lemma allowed_spec (path : string) :
  existsb (String.eqb path) allowed = true <->
  path = "index.html" \/ path = "script.js" \/ path = "style.css".
Proof.
  unfold allowed. simpl. rewrite orb_false_r, !orb_true_iff, !String.eqb_eq. tauto.
Qed.

Lemma allowed_has_no_dotdot (path : string) :
  existsb (String.eqb path) allowed = true -> contains ".." path = false.
Proof.
  rewrite allowed_spec. intros [-> | [-> | ->]]; reflexivity.
Qed.

(** C10.  The static route answers either by serving [path] from the
    frontend directory or with the 404 JSON error.  It serves exactly when
    the directory exists and the path is index.html, script.js or style.css,
    or starts with "assets/" and has no ".." inside; so a path with ".."
    inside always gets the 404. *)
Theorem frontend_static_allowlist (FRONTEND_DIR : string) (frontend_isdir : bool)
    (path : string) :
  let answer := frontend_static FRONTEND_DIR frontend_isdir path in
  (answer = SendFromDirectory FRONTEND_DIR path \/
   answer = Json (JObj [("error", JStr "Not found")]) 404) /\
  (answer = SendFromDirectory FRONTEND_DIR path <->
   frontend_isdir = true /\
   (path = "index.html" \/ path = "script.js" \/ path = "style.css" \/
    ((exists rest, path = ("assets/" ++ rest)%string) /\ ~ has_substring ".." path))) /\
  (has_substring ".." path ->
   answer = Json (JObj [("error", JStr "Not found")]) 404).
Proof.
  intro answer. subst answer. unfold frontend_static, startswith, not_found.
  pose proof (allowed_spec path) as Ha.
  pose proof (@allowed_has_no_dotdot path) as Hnd.
  pose proof (prefix_spec "assets/" path) as Hp.
  pose proof (contains_spec ".." path) as Hc.
  destruct frontend_isdir; cbn [negb].
  2:{ split; [right; reflexivity|]. split; [|reflexivity].
      split; [discriminate | intros [H _]; discriminate]. }
  destruct (existsb (String.eqb path) allowed) eqn:Ea.
  { split; [left; reflexivity|]. split.
    - split; [intros _|reflexivity]. split; [reflexivity|].
      destruct (proj1 Ha eq_refl) as [H|[H|H]]; auto.
    - intro Hdd. apply Hc in Hdd. rewrite (Hnd eq_refl) in Hdd. discriminate. }
  assert (Hna : ~ (path = "index.html" \/ path = "script.js" \/ path = "style.css")).
  { intro H. apply Ha in H. discriminate. }
  destruct (String.prefix "assets/" path) eqn:Ep; cbn [andb].
  - destruct (contains ".." path) eqn:Ec; cbn [negb].
    + split; [right; reflexivity|]. split; [|reflexivity].
      split; [discriminate|].
      intros [_ [H|[H|[H|[_ H]]]]]; exfalso; tauto.
    + split; [left; reflexivity|]. split.
      * split; [intros _|reflexivity]. split; [reflexivity|].
        right. right. right. split; [apply Hp; reflexivity|].
        intro H. apply Hc in H. discriminate.
      * intro H. apply Hc in H. discriminate.
  - split; [right; reflexivity|]. split; [|reflexivity].
    split; [discriminate|].
    intros [_ [H|[H|[H|[H _]]]]]; exfalso;
      first [tauto | apply Hp in H; discriminate].
Qed.

(* ================================================================== *)
(** * The trainer's fold count *)

Lemma value_counts_spec (labels : list string) (l : string) (c : nat) :
  In (l, c) (value_counts labels) <-> In l labels /\ c = count_label l labels.
Proof.
  unfold value_counts. rewrite in_map_iff. split.
  - intros (k & Hk & Hin). injection Hk as -> <-.
    apply nodup_In in Hin. auto.
  - intros [Hin ->]. exists l. split; [reflexivity | apply nodup_In, Hin].
Qed.

Lemma series_min_spec (counts : list (string * nat)) (m : nat) :
  series_min counts = Some m ->
  (exists l, In (l, m) counts) /\ (forall l c, In (l, c) counts -> m <= c).
Proof.
  revert m. induction counts as [|[k c0] rest IH]; intros m H; simpl in H.
  - discriminate.
  - destruct (series_min rest) as [m'|] eqn:E.
    + injection H as <-. destruct (IH m' eq_refl) as [[l Hl] Hmin].
      split.
      * destruct (Nat.min_spec c0 m') as [[_ ->]|[_ ->]].
        -- exists k. left. reflexivity.
        -- exists l. right. exact Hl.
      * intros l' c [Heq|Hin].
        -- injection Heq as _ <-. apply Nat.le_min_l.
        -- etransitivity; [apply Nat.le_min_r | eapply Hmin, Hin].
    + injection H as <-. destruct rest as [|[k' c'] rest'].
      * split; [exists k; left; reflexivity|].
        intros l c [Heq|[]]. injection Heq as _ <-. apply Nat.le_refl.
      * simpl in E. destruct (series_min rest'); discriminate.
Qed.

Lemma count_label_filter (p : string -> bool) (df : list Row) (l : string) :
  p l = true ->
  count_label l (map label (filter (fun r => p (label r)) df)) =
  count_label l (map label df).
Proof.
  intro Hp. unfold count_label.
  induction df as [|r df IH]; simpl; [reflexivity|].
  destruct (p (label r)) eqn:E; simpl.
  - destruct (string_dec (label r) l); rewrite IH; reflexivity.
  - destruct (string_dec (label r) l) as [Heq|_]; [|exact IH].
    rewrite Heq in E. congruence.
Qed.

Lemma not_rare_has_min_samples (counts : list (string * nat)) (l : string) (c : nat) :
  In (l, c) counts -> ~ In l (rare_classes_of counts) -> MIN_SAMPLES_PER_CLASS <= c.
Proof.
  intros Hin Hnot.
  destruct (Nat.ltb_spec c MIN_SAMPLES_PER_CLASS) as [Hlt|Hge]; [|exact Hge].
  exfalso. apply Hnot. unfold rare_classes_of.
  apply in_map_iff. exists (l, c). split; [reflexivity|].
  apply filter_In. split; [exact Hin|]. simpl. apply Nat.ltb_lt, Hlt.
Qed.

(** After the filtering step every class left has at least 10 rows. *)
Lemma filtered_classes_have_min_samples (df : list Row) (l : string) (c : nat) :
  In (l, c) (value_counts (map label (run_df (train_model df)))) ->
  MIN_SAMPLES_PER_CLASS <= c.
Proof.
  intro H. apply value_counts_spec in H. destruct H as [Hin ->].
  unfold train_model in *. cbn [run_df] in *.
  set (counts := value_counts (map label df)) in *.
  destruct (rare_classes_of counts) as [|r0 rare] eqn:E.
  - apply (@not_rare_has_min_samples counts l).
    + apply value_counts_spec. auto.
    + rewrite E. intros [].
  - rewrite <- E in *. clear E r0 rare.
    apply in_map_iff in Hin. destruct Hin as (r & <- & Hr).
    unfold drop_rare in *. apply filter_In in Hr. destruct Hr as [Hr Hkeep].
    rewrite (count_label_filter
               (fun k => negb (existsb (String.eqb k) (rare_classes_of counts))) df
               (label r) Hkeep).
    apply (@not_rare_has_min_samples counts (label r)).
    + apply value_counts_spec. split; [apply in_map, Hr | reflexivity].
    + intro Hrare. apply negb_true_iff in Hkeep.
      assert (Ht : existsb (String.eqb (label r)) (rare_classes_of counts) = true).
      { apply existsb_exists. exists (label r). split; [exact Hrare | apply String.eqb_refl]. }
      congruence.
Qed.

(** So the rule of lines 57-61, read on the filtered frame, always gives 5. *)
Lemma cv_folds_of_filtered (df : list Row) :
  cv_folds_of (value_counts (map label (run_df (train_model df)))) = 5.
Proof.
  unfold cv_folds_of.
  destruct (series_min _) as [m|] eqn:E; [|reflexivity].
  destruct (series_min_spec _ E) as [[l Hl] _].
  apply filtered_classes_have_min_samples in Hl. unfold MIN_SAMPLES_PER_CLASS in Hl.
  destruct (Nat.ltb_spec m 5); [lia | reflexivity].
Qed.

(** The script reads the counts taken before the filtering step. *)
Lemma run_cv_folds_reads_raw_counts (df : list Row) :
  run_cv_folds (train_model df) = cv_folds_of (value_counts (map label df)).
Proof. reflexivity. Qed.

(** C7.  On [lopsided_csv] the class "nothing" is dropped and the two
    classes that remain have 100 rows each, none fewer than 5; the script
    nevertheless lowers the fold count to 3, where the rule applied to the
    remaining classes gives 5. *)
Theorem cv_folds_uses_unfiltered_counts :
  let run := train_model lopsided_csv in
  run_rare_classes run = ["nothing"] /\
  value_counts (map label (run_df run)) = [("A", 100); ("B", 100)] /\
  series_min (value_counts (map label (run_df run))) = Some 100 /\
  cv_folds_of (value_counts (map label (run_df run))) = 5 /\
  run_cv_folds run = 3.
Proof.
  vm_compute. repeat split.
Qed.

(* ================================================================== *)
(** * The rest of the code

    The remaining routes of [app.py], the loop of [extract_landmarks.py],
    and further behaviour of the functions modelled above. *)

(** ** Definitions *)

(** [GET /health] *)
Definition health : response := Json (JObj [("status", JStr "ok")]) 200.

(** [GET /]; [frontend_isdir] is [os.path.isdir(FRONTEND_DIR)]. *)
Definition index (FRONTEND_DIR : string) (frontend_isdir : bool) : response :=
  if frontend_isdir then SendFromDirectory FRONTEND_DIR "index.html"
  else Json (JObj [("message", JStr "ASL Translator API");
                   ("docs", JStr "/health, POST /predict")]) 200.

(** The constant of [extract_landmarks.py] (a raw string). *)
Definition DATASET_PATH : string :=
  "C:\Users\junai\Documents\asl-translator\backend\asl_alphabet_train".

(** [mp_hands.Hands(static_image_mode=True, max_num_hands=1)]; both
    confidences default to 0.5. *)
Definition builder_hands : HandsConfig := mkHands true 1 (1#2) (1#2).

Section DatasetBuilder.

(** The file system and OpenCV as the script sees them. *)
Variable image : Type.
(** [os.listdir]; raises when the directory cannot be listed. *)
Variable listdir : string -> result (list string).
Variable isdir : string -> bool.
Variable os_path_join : string -> string -> string.
(** [cv2.imread]; [None] when the file is not a readable image. *)
Variable imread : string -> option image.
Variable cvtColor_BGR2RGB : image -> image.
Variable detectable_hands : image -> list HandLandmarks.

(** The body of the inner loop: the rows one image file adds to the CSV. *)
Definition process_image (label img_path : string) : list (list Q * string) :=
  match imread img_path with
  | None => []
  | Some img =>
      let img_rgb := cvtColor_BGR2RGB img in
      match outcome (hands_process detectable_hands builder_hands img_rgb) with
      | Ok (Some (hand_landmarks :: _)) => [csv_row hand_landmarks label]
      | _ => []
      end
  end.

(** The body of the outer loop: rows written for one entry of the dataset
    directory, and the exception that stopped the script, if any. *)
Definition process_label (label : string) : list (list Q * string) * option exn :=
  let label_path := os_path_join DATASET_PATH label in
  if negb (isdir label_path) then ([], None)
  else
    match listdir label_path with
    | Raise e => ([], Some e)
    | Ok img_names =>
        (flat_map (fun img_name => process_image label (os_path_join label_path img_name))
                  img_names,
         None)
    end.

Fixpoint process_labels (labels : list string)
  : list (list Q * string) * option exn :=
  match labels with
  | [] => ([], None)
  | label :: rest =>
      match process_label label with
      | (written, Some e) => (written, Some e)
      | (written, None) =>
          let (later, stopped) := process_labels rest in (written ++ later, stopped)
      end
  end.

(** What [asl_landmarks.csv] holds when the script ends: the header line,
    the data lines, and the exception that ended it early, if any. *)
Record CsvFile : Type := mkCsv {
  csv_header : list string;
  csv_rows : list (list Q * string)
}.

Definition build_dataset : CsvFile * option exn :=
  match listdir DATASET_PATH with
  | Raise e => (mkCsv header [], Some e)
  | Ok labels =>
      let (written, stopped) := process_labels labels in
      (mkCsv header written, stopped)
  end.

(** An image file of a label directory that yields a row. *)
Definition usable (label_path img_name : string) : bool :=
  match imread (os_path_join label_path img_name) with
  | None => false
  | Some img =>
      match detectable_hands (cvtColor_BGR2RGB img) with
      | [] => false
      | _ :: _ => true
      end
  end.

End DatasetBuilder.

(** scikit-learn as [train_model.py] uses it before the fold count is
    chosen: [train_test_split(X, y, test_size=0.2, random_state=42,
    stratify=y)] and [model.fit(X_train, y_train)].  Either may raise; the
    split raises on a frame without rows. *)
Class Sklearn : Type := {
  train_test_split : list Row -> result (list Row * list Row);
  train_test_split_empty : exists e, train_test_split [] = Raise e;
  model_fit : list Row -> result unit
}.

(** The script from the loaded frame to line 61, in its own order: count,
    filter, split, fit, and only then the fold count. *)
Definition train_script {sk : Sklearn} (df : list Row) : result TrainerRun :=
  let class_counts := value_counts (map label df) in
  let rare_classes := rare_classes_of class_counts in
  let df' := match rare_classes with
             | [] => df
             | _ => drop_rare rare_classes df
             end in
  match train_test_split df' with
  | Raise e => Raise e
  | Ok (train, test) =>
      match model_fit train with
      | Raise e => Raise e
      | Ok _ => Ok (mkRun rare_classes df' (cv_folds_of class_counts))
      end
  end.

(** ** Reading a handler's result back *)

Lemma outcome_bind {A B} (m : M A) (f : A -> M B) :
  outcome (bind m f) =
  match outcome m with Ok a => outcome (f a) | Raise e => Raise e end.
Proof.
  destruct m as [t [a|e]]; unfold bind, outcome; simpl; [|reflexivity].
  destruct (f a); reflexivity.
Qed.

Lemma np_index_inv {A} (a : list A) (i : nat) (v : A) :
  np_index a i = Ok v -> nth_error a i = Some v.
Proof.
  unfold np_index. destruct (nth_error a i); [|discriminate].
  intro H. injection H as ->. reflexivity.
Qed.

Lemma np_argmax_inv (probs : list Q) (i : nat) :
  np_argmax probs = Ok i -> probs <> [] /\ is_first_max probs i.
Proof.
  intro H. assert (Hne : probs <> []) by (destruct probs; [discriminate H | discriminate]).
  split; [exact Hne|].
  destruct (np_argmax_spec Hne) as (r & Hr & Hmax). congruence.
Qed.

Section Readback.
Variable image : Type.
Variable imdecode : list Byte.byte -> result (option image).
Variable cvtColor_BGR2RGB : image -> image.
Variable detectable_hands : image -> list HandLandmarks.
Variable model : Model.
Context {np : ArgSort}.

(** Whatever [classify] returns was built from a row of the classifier. *)
Lemma classify_inv (df : DataFrame) (r : response) :
  outcome (classify model df) = Ok r ->
  exists probs more best_idx best_label best_prob tops,
    predict_proba model df = Ok (probs :: more) /\
    np_argmax probs = Ok best_idx /\
    nth_error (classes_ model) best_idx = Some best_label /\
    nth_error probs best_idx = Some best_prob /\
    outcome (top_predictions model probs) = Ok tops /\
    r = if Qltb best_prob confidence_threshold
        then low_confidence best_prob tops
        else accepted best_label best_prob tops.
Proof.
  unfold classify. rewrite bind_called. unfold outcome at 1. cbn [snd].
  rewrite outcome_bind. unfold lift at 1, outcome at 1. cbn [snd].
  destruct (predict_proba model df) as [proba|e] eqn:Hp; [|discriminate].
  rewrite outcome_bind. unfold lift at 1, outcome at 1. cbn [snd].
  destruct (np_index proba 0) as [probs|e] eqn:H0; [|discriminate].
  rewrite outcome_bind. unfold lift at 1, outcome at 1. cbn [snd].
  destruct (np_argmax probs) as [best_idx|e] eqn:Ha; [|discriminate].
  rewrite outcome_bind. unfold lift at 1, outcome at 1. cbn [snd].
  destruct (np_index (classes_ model) best_idx) as [best_label|e] eqn:Hl; [|discriminate].
  rewrite outcome_bind. unfold lift at 1, outcome at 1. cbn [snd].
  destruct (np_index probs best_idx) as [best_prob|e] eqn:Hb; [|discriminate].
  intro H.
  destruct proba as [|row more]; [discriminate H0|].
  injection H0 as ->.
  assert (Htops : exists tops, outcome (top_predictions model probs) = Ok tops /\
            r = if Qltb best_prob confidence_threshold
                then low_confidence best_prob tops
                else accepted best_label best_prob tops).
  { destruct (Qltb best_prob confidence_threshold);
      rewrite outcome_bind in H;
      destruct (outcome (top_predictions model probs)) as [tops|e]; try discriminate;
      exists tops; split; try reflexivity;
      unfold outcome, ret in H; cbn [snd] in H; injection H as <-; reflexivity. }
  destruct Htops as (tops & Ht & Hr).
  exists probs, more, best_idx, best_label, best_prob, tops.
  repeat split; auto using np_index_inv.
Qed.

(** [predict], case by case. *)
Lemma predict_cases (request_files : list (string * list Byte.byte)) :
  predict imdecode cvtColor_BGR2RGB detectable_hands model request_files =
  match assoc "frame" request_files with
  | None => ([], Ok (Json (JObj [("error", JStr "missing frame")]) 400))
  | Some img_bytes =>
      match imdecode img_bytes with
      | Raise e => ([Call_imdecode], Raise e)
      | Ok None => ([Call_imdecode], Ok (Json (JObj [("error", JStr "invalid image")]) 400))
      | Ok (Some img) =>
          match detectable_hands (cvtColor_BGR2RGB img) with
          | [] => ([Call_imdecode; Call_extract_landmarks; Call_hands_process], Ok no_hand)
          | h :: _ =>
              match encode h with
              | Raise e =>
                  ([Call_imdecode; Call_extract_landmarks; Call_hands_process], Raise e)
              | Ok df =>
                  let handled :=
                    try_except (classify model df) (fun e => ret (server_error e)) in
                  (Call_imdecode :: Call_extract_landmarks :: Call_hands_process
                     :: trace handled,
                   outcome handled)
              end
          end
      end
  end.
Proof.
  unfold predict.
  destruct (assoc "frame" request_files) as [img_bytes|]; [|reflexivity].
  rewrite bind_called.
  destruct (imdecode img_bytes) as [[img|]|e]; try reflexivity.
  rewrite bind_lift_ok.
  destruct (detectable_hands (cvtColor_BGR2RGB img)) as [|h others] eqn:E.
  - rewrite (extract_none _ _ _ E). reflexivity.
  - rewrite (extract_first _ _ _ E).
    destruct (encode h) as [df|e]; [|reflexivity].
    unfold bind, trace, outcome, server_error. cbv zeta.
    destruct (try_except _ _) as [t r]. reflexivity.
Qed.

(** The [try] statement of [predict] always returns. *)
Lemma handled_cases (df : DataFrame) :
  let handled := try_except (classify model df) (fun e => ret (server_error e)) in
  trace handled = [Call_predict_proba] /\
  ((exists r, outcome (classify model df) = Ok r /\ outcome handled = Ok r) \/
   (exists e, outcome (classify model df) = Raise e /\
              outcome handled = Ok (server_error e))).
Proof.
  cbv zeta. pose proof (trace_classify model df) as Ht.
  destruct (classify model df) as [t [r|e]]; unfold trace, outcome in *; simpl in *; subst t.
  - split; [reflexivity|]. left. eauto.
  - split; [reflexivity|]. right. eauto.
Qed.

End Readback.

(** ** Further sample material *)

Module Cases.

(** A classifier whose best class stays just under the threshold. *)
Definition borderline : Model :=
  mkModel ["A"; "B"; "C"; "D"] (fun _ => Ok [[299#1000; 299#1000; 299#1000; 103#1000]%Q]).

(** A detector output with a hand of 20 landmarks. *)
Definition short_hand : HandLandmarks := mkHand (map Sample.point (seq 1 20)).

Definition detect_short (img : Sample.image) : list HandLandmarks := [short_hand].

End Cases.

(* ================================================================== *)
(** * More about [/predict] *)

(** X1.  Every response [predict] returns is one of six JSON answers: the
    two 400 errors, the 200 "no hand detected" answer, a 500 error carrying
    an exception text, a 200 low-confidence answer whose confidence is below
    the threshold, or a 200 prediction whose label is one of the model's
    classes and whose confidence is at least the threshold. *)
Theorem predict_answer_shapes
    (image : Type) (imdecode : list Byte.byte -> result (option image))
    (cvtColor_BGR2RGB : image -> image)
    (detectable_hands : image -> list HandLandmarks)
    (model : Model) (np : ArgSort)
    (request_files : list (string * list Byte.byte)) (r : response) :
  outcome (predict imdecode cvtColor_BGR2RGB detectable_hands model request_files) = Ok r ->
  r = Json (JObj [("error", JStr "missing frame")]) 400 \/
  r = Json (JObj [("error", JStr "invalid image")]) 400 \/
  r = Json (JObj [("prediction", JNull); ("message", JStr "no hand detected")]) 200 \/
  (exists e, r = Json (JObj [("error", JStr (exn_str e))]) 500) \/
  (exists p tops, (p < confidence_threshold)%Q /\ r = low_confidence p tops) \/
  (exists l p tops,
     In l (classes_ model) /\ (confidence_threshold <= p)%Q /\ r = accepted l p tops).
Proof.
  rewrite predict_cases.
  destruct (assoc "frame" request_files) as [img_bytes|].
  2:{ intro H. injection H as <-. auto. }
  destruct (imdecode img_bytes) as [[img|]|e]; try discriminate.
  2:{ intro H. injection H as <-. auto. }
  destruct (detectable_hands (cvtColor_BGR2RGB img)) as [|h others].
  { intro H. injection H as <-. auto. }
  destruct (encode h) as [df|e]; [|discriminate].
  cbv zeta. unfold outcome at 1. cbn [snd].
  destruct (handled_cases model df) as (_ & [(r' & Hc & Hh) | (e & _ & Hh)]);
    rewrite Hh; intro H; injection H as <-.
  - destruct (classify_inv model df Hc)
      as (probs & more & best_idx & best_label & best_prob & tops
          & _ & _ & Hl & _ & _ & ->).
    destruct (Qltb best_prob confidence_threshold) eqn:E.
    + right. right. right. right. left. exists best_prob, tops.
      split; [apply Qltb_true, E | reflexivity].
    + right. right. right. right. right. exists best_label, best_prob, tops.
      split; [eapply nth_error_In, Hl|]. split; [apply Qltb_false, E | reflexivity].
  - right. right. right. left. exists e. reflexivity.
Qed.

Lemma predict_answer_shapes_witness :
  outcome (Sample.serve Sample.confident (Sample.upload Sample.photo_one_hand))
  = Ok (accepted "A" (23#25)
          (map (top_json ["A"; "B"; "C"] [23#25; 1#20; 3#100]%Q) [0; 1; 2])) /\
  (accepted "A" (23#25) (map (top_json ["A"; "B"; "C"] [23#25; 1#20; 3#100]%Q) [0; 1; 2])
   = Json (JObj [("error", JStr "missing frame")]) 400 \/
   accepted "A" (23#25) (map (top_json ["A"; "B"; "C"] [23#25; 1#20; 3#100]%Q) [0; 1; 2])
   = Json (JObj [("error", JStr "invalid image")]) 400 \/
   accepted "A" (23#25) (map (top_json ["A"; "B"; "C"] [23#25; 1#20; 3#100]%Q) [0; 1; 2])
   = Json (JObj [("prediction", JNull); ("message", JStr "no hand detected")]) 200 \/
   (exists e,
      accepted "A" (23#25) (map (top_json ["A"; "B"; "C"] [23#25; 1#20; 3#100]%Q) [0; 1; 2])
      = Json (JObj [("error", JStr (exn_str e))]) 500) \/
   (exists p tops, (p < confidence_threshold)%Q /\
      accepted "A" (23#25) (map (top_json ["A"; "B"; "C"] [23#25; 1#20; 3#100]%Q) [0; 1; 2])
      = low_confidence p tops) \/
   (exists l p tops,
      In l (classes_ Sample.confident) /\ (confidence_threshold <= p)%Q /\
      accepted "A" (23#25) (map (top_json ["A"; "B"; "C"] [23#25; 1#20; 3#100]%Q) [0; 1; 2])
      = accepted l p tops)).
Proof.
  split; [reflexivity|].
  exact (@predict_answer_shapes _ Sample.imdecode Sample.cvtColor_BGR2RGB
           Sample.detectable_hands Sample.confident numpy_small
           (Sample.upload Sample.photo_one_hand) _ eq_refl).
Defined.

(** X2.  [predict] lets an exception escape in two situations only: the
    decoder raised it, or the first detected hand does not have 21
    landmarks and building the frame raised it.  Exceptions of the
    classification block never escape. *)
Theorem predict_raises_iff
    (image : Type) (imdecode : list Byte.byte -> result (option image))
    (cvtColor_BGR2RGB : image -> image)
    (detectable_hands : image -> list HandLandmarks)
    (model : Model) (np : ArgSort)
    (request_files : list (string * list Byte.byte)) (e : exn) :
  outcome (predict imdecode cvtColor_BGR2RGB detectable_hands model request_files) = Raise e
  <->
  exists img_bytes,
    assoc "frame" request_files = Some img_bytes /\
    (imdecode img_bytes = Raise e \/
     exists img h others,
       imdecode img_bytes = Ok (Some img) /\
       detectable_hands (cvtColor_BGR2RGB img) = h :: others /\
       List.length (landmark h) <> 21 /\
       encode h = Raise e).
Proof.
  rewrite predict_cases. split.
  - destruct (assoc "frame" request_files) as [img_bytes|]; [|discriminate].
    destruct (imdecode img_bytes) as [[img|]|e'] eqn:Hd; try discriminate.
    + destruct (detectable_hands (cvtColor_BGR2RGB img)) as [|h others] eqn:Hh;
        [discriminate|].
      destruct (encode h) as [df|e'] eqn:He.
      * cbv zeta. unfold outcome at 1. cbn [snd].
        destruct (handled_cases model df) as (_ & [(r' & _ & Hr) | (e' & _ & Hr)]);
          rewrite Hr; discriminate.
      * intro H. injection H as ->. exists img_bytes. split; [reflexivity|].
        right. exists img, h, others. repeat split; auto.
        intro H21. rewrite (encode_21 _ H21) in He. discriminate.
    + intro H. injection H as ->. exists img_bytes. auto.
  - intros (img_bytes & -> & [-> | (img & h & others & -> & -> & _ & ->)]); reflexivity.
Qed.

(** X3.  A request makes each call at most once and in a fixed order
    (decode, extract, detect, classify), and the classifier is called
    exactly when the frame decodes and the first detected hand has 21
    landmarks. *)
Theorem predict_call_discipline
    (image : Type) (imdecode : list Byte.byte -> result (option image))
    (cvtColor_BGR2RGB : image -> image)
    (detectable_hands : image -> list HandLandmarks)
    (model : Model) (np : ArgSort)
    (request_files : list (string * list Byte.byte)) :
  let calls :=
    trace (predict imdecode cvtColor_BGR2RGB detectable_hands model request_files) in
  (exists later,
     [Call_imdecode; Call_extract_landmarks; Call_hands_process; Call_predict_proba]
     = calls ++ later) /\
  (In Call_predict_proba calls <->
   exists h, hand_detected imdecode cvtColor_BGR2RGB detectable_hands request_files h /\
             List.length (landmark h) = 21).
Proof.
  cbv zeta. rewrite predict_cases. unfold hand_detected.
  destruct (assoc "frame" request_files) as [img_bytes|].
  2:{ split; [eexists; reflexivity|]. split; [intros []|].
      intros (h & (b & img & others & Hf & _) & _). discriminate. }
  destruct (imdecode img_bytes) as [[img|]|e] eqn:Hd.
  - destruct (detectable_hands (cvtColor_BGR2RGB img)) as [|h others] eqn:Hh.
    + split; [eexists; reflexivity|]. split; [simpl; intuition discriminate|].
      intros (h & (b & img' & others & Hf & Hd' & Hh') & _).
      injection Hf as <-. rewrite Hd in Hd'. injection Hd' as <-. congruence.
    + destruct (encode h) as [df|e] eqn:He.
      * cbv zeta. destruct (handled_cases model df) as (-> & _).
        split; [exists []; reflexivity|]. split; [intros _|simpl; auto].
        exists h. split; [exists img_bytes, img, others; auto|].
        destruct (Nat.eq_dec (List.length (landmark h)) 21) as [E|E]; [exact E|].
        destruct (encode_other _ E) as (e & He'). congruence.
      * split; [eexists; reflexivity|]. split; [simpl; intuition discriminate|].
        intros (h' & (b & img' & others' & Hf & Hd' & Hh') & H21).
        injection Hf as <-. rewrite Hd in Hd'. injection Hd' as <-.
        rewrite Hh in Hh'. injection Hh' as <- _.
        rewrite (encode_21 _ H21) in He. discriminate.
  - split; [eexists; reflexivity|]. split; [simpl; intuition discriminate|].
    intros (h & (b & img & others & Hf & Hd' & _) & _).
    injection Hf as <-. congruence.
  - split; [eexists; reflexivity|]. split; [simpl; intuition discriminate|].
    intros (h & (b & img & others & Hf & Hd' & _) & _).
    injection Hf as <-. congruence.
Qed.

(** X4.  Whenever [extract_landmarks] returns a frame, the frame has the 42
    columns x0,y0,...,x20,y20 and exactly one row of 42 values, the x and y
    of the 21 landmarks of the first detected hand. *)
Theorem extracted_frame_is_one_by_42
    (image : Type) (cvtColor_BGR2RGB : image -> image)
    (detectable_hands : image -> list HandLandmarks)
    (img : image) (df : DataFrame) :
  outcome (extract_landmarks cvtColor_BGR2RGB detectable_hands img) = Ok (Some df) ->
  exists h others,
    detectable_hands (cvtColor_BGR2RGB img) = h :: others /\
    List.length (landmark h) = 21 /\
    columns df = feature_names /\
    List.length (columns df) = 42 /\
    rows df = [coords_of (landmark h)] /\
    List.length (coords_of (landmark h)) = 42.
Proof.
  destruct (detectable_hands (cvtColor_BGR2RGB img)) as [|h others] eqn:Hh.
  - rewrite (extract_none _ _ _ Hh). discriminate.
  - rewrite (extract_first _ _ _ Hh). unfold outcome. cbn [snd].
    destruct (Nat.eq_dec (List.length (landmark h)) 21) as [E|E].
    + rewrite (encode_21 _ E). intro H. injection H as <-.
      exists h, others. rewrite coords_of_length, E. repeat split.
    + destruct (encode_other _ E) as (e & ->). discriminate.
Qed.

Lemma extracted_frame_is_one_by_42_witness :
  outcome (extract_landmarks Sample.cvtColor_BGR2RGB Sample.detectable_hands 2)
  = Ok (Some (raw_frame Sample.open_hand)) /\
  exists h others,
    Sample.detectable_hands (Sample.cvtColor_BGR2RGB 2) = h :: others /\
    List.length (landmark h) = 21 /\
    columns (raw_frame Sample.open_hand) = feature_names /\
    List.length (columns (raw_frame Sample.open_hand)) = 42 /\
    rows (raw_frame Sample.open_hand) = [coords_of (landmark h)] /\
    List.length (coords_of (landmark h)) = 42.
Proof.
  split; [reflexivity|].
  exact (@extracted_frame_is_one_by_42 _ Sample.cvtColor_BGR2RGB Sample.detectable_hands
           2 (raw_frame Sample.open_hand) eq_refl).
Defined.

(** ** The candidates listed with an answer *)

Lemma sorted_app_cross {A} (R : A -> A -> Prop) (l1 l2 : list A) :
  StronglySorted R (l1 ++ l2) ->
  forall a b, In a l1 -> In b l2 -> R a b.
Proof.
  induction l1 as [|x l1 IH]; simpl; intros Hs a b Ha Hb; [contradiction|].
  inversion Hs as [|? ? Hs' Hx]; subst.
  destruct Ha as [->|Ha].
  - rewrite Forall_forall in Hx. apply Hx, in_or_app. right. exact Hb.
  - apply IH; assumption.
Qed.

Lemma last_n_split {A} (n : nat) (l : list A) :
  l = firstn (List.length l - n) l ++ last_n n l.
Proof. unfold last_n. symmetry. apply firstn_skipn. Qed.

Lemma last_n_length {A} (n : nat) (l : list A) :
  List.length (last_n n l) = Nat.min n (List.length l).
Proof. unfold last_n. rewrite length_skipn. lia. Qed.

(** X5.  With a hand detected and a row of probabilities, one per class,
    [top_predictions] lists min(3, number of classes) distinct classes, each
    with its own probability, and no class left out of the list has a
    higher probability than a class in it. *)
Theorem top_predictions_are_the_largest
    (image : Type) (imdecode : list Byte.byte -> result (option image))
    (cvtColor_BGR2RGB : image -> image)
    (detectable_hands : image -> list HandLandmarks)
    (model : Model) (np : ArgSort)
    (request_files : list (string * list Byte.byte)) (h : HandLandmarks)
    (probs : list Q) (more : list (list Q)) :
  hand_detected imdecode cvtColor_BGR2RGB detectable_hands request_files h ->
  List.length (landmark h) = 21 ->
  predict_proba model (raw_frame h) = Ok (probs :: more) ->
  probs <> [] ->
  List.length (classes_ model) = List.length probs ->
  exists idxs body,
    outcome (predict imdecode cvtColor_BGR2RGB detectable_hands model request_files)
    = Ok (Json body 200) /\
    json_get "top_predictions" body
    = Some (JArr (map (fun i => JObj [("label", JStr (nth i (classes_ model) ""));
                                      ("confidence", JNum (nth i probs 0%Q))]) idxs)) /\
    List.length idxs = Nat.min 3 (List.length probs) /\
    NoDup idxs /\
    Forall (fun i => i < List.length probs) idxs /\
    (forall i j, In i idxs -> j < List.length probs -> ~ In j idxs ->
                 (nth j probs 0 <= nth i probs 0)%Q).
Proof.
  intros Hd H21 Hp Hne Hlen.
  destruct (classify_ok model _ Hp Hne Hlen) as (best_idx & _ & _ & Hc).
  cbv zeta in Hc.
  exists (rev (last_n 3 (argsort probs))).
  assert (Hnd : NoDup (argsort probs)).
  { apply (Permutation_NoDup (Permutation_sym (argsort_perm probs))), seq_NoDup. }
  pose proof (last_n_split 3 (argsort probs)) as Hsplit.
  assert (Hbody : exists body,
            outcome (predict imdecode cvtColor_BGR2RGB detectable_hands model request_files)
            = Ok (Json body 200) /\
            json_get "top_predictions" body
            = Some (JArr (map (top_json (classes_ model) probs)
                              (rev (last_n 3 (argsort probs)))))).
  { rewrite (predict_hand_detected model Hd H21), Hc.
    unfold outcome, try_except. cbn [snd].
    destruct (Qltb _ _); eexists; split; reflexivity. }
  destruct Hbody as (body & Hout & Htops).
  exists body. split; [exact Hout|]. split; [exact Htops|].
  split; [|split; [|split]].
  - rewrite length_rev, last_n_length, argsort_length. reflexivity.
  - apply NoDup_rev. rewrite Hsplit in Hnd. apply NoDup_app_remove_l in Hnd. exact Hnd.
  - apply Forall_forall. intros i Hi.
    apply in_rev, last_n_incl in Hi. apply argsort_in_range, Hi.
  - intros i j Hi Hj Hleft. apply in_rev in Hi.
    assert (Hin : In j (argsort probs)).
    { apply (Permutation_in _ (Permutation_sym (argsort_perm probs))), in_seq. lia. }
    rewrite Hsplit in Hin. apply in_app_or in Hin. destruct Hin as [Hin|Hin].
    + pose proof (argsort_sorted probs) as Hs. rewrite Hsplit in Hs.
      exact (sorted_app_cross _ _ Hs _ _ Hin Hi).
    + exfalso. apply Hleft, in_rev. rewrite rev_involutive. exact Hin.
Qed.

Lemma top_predictions_are_the_largest_witness :
  hand_detected Sample.imdecode Sample.cvtColor_BGR2RGB Sample.detectable_hands
    (Sample.upload Sample.photo_one_hand) Sample.open_hand /\
  List.length (landmark Sample.open_hand) = 21 /\
  predict_proba Sample.unsure (raw_frame Sample.open_hand)
    = Ok [[1#4; 1#4; 1#4; 1#4]%Q] /\
  [1#4; 1#4; 1#4; 1#4]%Q <> [] /\
  List.length (classes_ Sample.unsure) = List.length [1#4; 1#4; 1#4; 1#4]%Q /\
  exists idxs : list nat,
    List.length idxs = Nat.min 3 (List.length [1#4; 1#4; 1#4; 1#4]%Q) /\ NoDup idxs.
Proof.
  split; [exact Sample.one_hand_detected|]. split; [reflexivity|].
  split; [reflexivity|]. split; [discriminate|]. split; [reflexivity|].
  destruct (@top_predictions_are_the_largest _ Sample.imdecode Sample.cvtColor_BGR2RGB
              Sample.detectable_hands Sample.unsure numpy_small
              (Sample.upload Sample.photo_one_hand) Sample.open_hand
              [1#4; 1#4; 1#4; 1#4]%Q []
              Sample.one_hand_detected eq_refl eq_refl ltac:(discriminate) eq_refl)
    as (idxs & body & _ & _ & Hl & Hnd & _).
  exists idxs. split; assumption.
Defined.

(** ** The confidence shown in the low-confidence message *)

Lemma format_2f_just_below_threshold (p : Q) :
  (59 # 200 <= p)%Q -> (p < confidence_threshold)%Q -> format_2f p = "0.30".
Proof.
  destruct p as [n d]. unfold Qle, Qlt, confidence_threshold. cbn [Qnum Qden].
  intros Hlo Hhi.
  assert (Hn : (0 <= n)%Z) by lia.
  unfold format_2f.
  assert (Hneg : Qltb (n # d) 0 = false).
  { apply Qltb_false. unfold Qle. simpl. lia. }
  rewrite Hneg.
  assert (Hround : round_half_even (Qabs (n # d) * 100) = 30%Z).
  { unfold round_half_even, Qabs, Qmult. cbn [Qnum Qden].
    rewrite Z.abs_eq by exact Hn. rewrite Pos.mul_1_r.
    assert (Hfl : (n * 100 / Z.pos d = 29)%Z).
    { symmetry. apply Z.div_unique with (r := (n * 100 - 29 * Z.pos d)%Z); lia. }
    assert (Hr : ((n * 100) mod Z.pos d = n * 100 - 29 * Z.pos d)%Z).
    { symmetry. apply Z.mod_unique with (q := 29%Z); lia. }
    rewrite Hfl, Hr.
    destruct (Z.compare_spec (2 * (n * 100 - 29 * Z.pos d)) (Z.pos d)); [reflexivity|lia|reflexivity]. }
  rewrite Hround. reflexivity.
Qed.

(** X6.  The message of a low-confidence answer shows the confidence
    rounded to two decimals, while the cut-off compares the unrounded value:
    when every probability is below the threshold and the largest is at
    least 0.295, the answer is a rejection whose message reads
    "low confidence (0.30)". *)
Theorem low_confidence_message_can_read_030
    (image : Type) (imdecode : list Byte.byte -> result (option image))
    (cvtColor_BGR2RGB : image -> image)
    (detectable_hands : image -> list HandLandmarks)
    (model : Model) (np : ArgSort)
    (request_files : list (string * list Byte.byte)) (h : HandLandmarks)
    (probs : list Q) (more : list (list Q)) :
  hand_detected imdecode cvtColor_BGR2RGB detectable_hands request_files h ->
  List.length (landmark h) = 21 ->
  predict_proba model (raw_frame h) = Ok (probs :: more) ->
  List.length (classes_ model) = List.length probs ->
  Forall (fun p => (p < confidence_threshold)%Q) probs ->
  Exists (fun p => (59 # 200 <= p)%Q) probs ->
  exists tops,
    outcome (predict imdecode cvtColor_BGR2RGB detectable_hands model request_files)
    = Ok (Json (JObj [("prediction", JNull);
                      ("message", JStr "low confidence (0.30)");
                      ("top_predictions", JArr tops)]) 200).
Proof.
  intros Hd H21 Hp Hlen Hall Hex.
  assert (Hne : probs <> []) by (destruct Hex; discriminate).
  destruct (classify_ok model _ Hp Hne Hlen) as (best_idx & _ & Hmax & Hc).
  cbv zeta in Hc. destruct Hmax as (Hlt & Hge & _).
  assert (Hbelow : (nth best_idx probs 0 < confidence_threshold)%Q).
  { rewrite Forall_forall in Hall. apply Hall, nth_In, Hlt. }
  assert (Habove : (59 # 200 <= nth best_idx probs 0)%Q).
  { apply Exists_exists in Hex. destruct Hex as (p & Hin & Hp59).
    destruct (In_nth _ _ 0%Q Hin) as (j & Hj & <-).
    eapply Qle_trans; [exact Hp59 | apply Hge, Hj]. }
  rewrite (proj2 (Qltb_true _ _) Hbelow) in Hc.
  eexists.
  rewrite (predict_hand_detected model Hd H21), Hc.
  unfold outcome, try_except, low_confidence. cbn [snd].
  rewrite (format_2f_just_below_threshold Habove Hbelow). reflexivity.
Qed.

Lemma low_confidence_message_can_read_030_witness :
  hand_detected Sample.imdecode Sample.cvtColor_BGR2RGB Sample.detectable_hands
    (Sample.upload Sample.photo_one_hand) Sample.open_hand /\
  List.length (landmark Sample.open_hand) = 21 /\
  predict_proba Cases.borderline (raw_frame Sample.open_hand)
    = Ok [[299#1000; 299#1000; 299#1000; 103#1000]%Q] /\
  List.length (classes_ Cases.borderline)
    = List.length [299#1000; 299#1000; 299#1000; 103#1000]%Q /\
  Forall (fun p => (p < confidence_threshold)%Q)
    [299#1000; 299#1000; 299#1000; 103#1000]%Q /\
  Exists (fun p => (59 # 200 <= p)%Q) [299#1000; 299#1000; 299#1000; 103#1000]%Q /\
  exists tops,
    outcome (Sample.serve Cases.borderline (Sample.upload Sample.photo_one_hand))
    = Ok (Json (JObj [("prediction", JNull);
                      ("message", JStr "low confidence (0.30)");
                      ("top_predictions", JArr tops)]) 200).
Proof.
  assert (Hall : Forall (fun p => (p < confidence_threshold)%Q)
                   [299#1000; 299#1000; 299#1000; 103#1000]%Q).
  { repeat constructor. }
  assert (Hex : Exists (fun p => (59 # 200 <= p)%Q)
                  [299#1000; 299#1000; 299#1000; 103#1000]%Q).
  { left. unfold Qle. simpl. lia. }
  split; [exact Sample.one_hand_detected|]. split; [reflexivity|].
  split; [reflexivity|]. split; [reflexivity|]. split; [exact Hall|]. split; [exact Hex|].
  exact (@low_confidence_message_can_read_030 _ Sample.imdecode Sample.cvtColor_BGR2RGB
           Sample.detectable_hands Cases.borderline numpy_small
           (Sample.upload Sample.photo_one_hand) Sample.open_hand
           [299#1000; 299#1000; 299#1000; 103#1000]%Q []
           Sample.one_hand_detected eq_refl eq_refl eq_refl Hall Hex).
Defined.

(* ================================================================== *)
(** * [normalize_landmarks] *)

Lemma normalize_landmarks_nonempty (fa : FloatArith) (wrist : Landmark)
    (rest : list Landmark) :
  normalize_landmarks (wrist :: rest) =
  ([Call_normalize_landmarks],
   Ok (map (fun lm => [float_sub (lm_x lm) (lm_x wrist);
                       float_sub (lm_y lm) (lm_y wrist)]) (wrist :: rest))).
Proof. reflexivity. Qed.

(** X7.  On an empty list [normalize_landmarks] raises [IndexError].  On a
    non-empty list it returns one [x, y] pair per landmark, in order; the
    pair of the wrist (landmark 0) is (0, 0), and the pair of any other
    landmark is its x minus the wrist's x and its y minus the wrist's y, in
    float arithmetic. *)
Theorem normalize_landmarks_wrist_at_origin (fa : FloatArith) (lms : list Landmark) :
  match lms with
  | [] =>
      exists e, outcome (normalize_landmarks lms) = Raise e /\
                exn_class e = "IndexError"
  | wrist :: rest =>
      exists x0 y0 others,
        outcome (normalize_landmarks lms) = Ok ([x0; y0] :: others) /\
        (x0 == 0)%Q /\ (y0 == 0)%Q /\
        List.length others = List.length rest /\
        forall i lm, nth_error rest i = Some lm ->
          nth_error others i = Some [float_sub (lm_x lm) (lm_x wrist);
                                     float_sub (lm_y lm) (lm_y wrist)]
  end.
Proof.
  destruct lms as [|wrist rest].
  - eexists. split; reflexivity.
  - rewrite normalize_landmarks_nonempty. cbn [map outcome snd].
    do 3 eexists. split; [reflexivity|].
    split; [apply float_sub_self|]. split; [apply float_sub_self|].
    split; [apply length_map|].
    intros i lm Hi. rewrite nth_error_map, Hi. reflexivity.
Qed.

(* ================================================================== *)
(** * The root route *)

(** X9.  With the frontend directory present, [GET /] serves the same file
    as [GET /index.html]; without it, [GET /] still answers 200 with the API
    descriptor while every static path answers 404. *)
Theorem index_and_static (FRONTEND_DIR : string) (frontend_isdir : bool) :
  if frontend_isdir
  then index FRONTEND_DIR frontend_isdir
       = frontend_static FRONTEND_DIR frontend_isdir "index.html" /\
       index FRONTEND_DIR frontend_isdir = SendFromDirectory FRONTEND_DIR "index.html"
  else index FRONTEND_DIR frontend_isdir
       = Json (JObj [("message", JStr "ASL Translator API");
                     ("docs", JStr "/health, POST /predict")]) 200 /\
       forall path, frontend_static FRONTEND_DIR frontend_isdir path
                    = Json (JObj [("error", JStr "Not found")]) 404.
Proof.
  destruct frontend_isdir; split; try reflexivity.
Qed.

(* ================================================================== *)
(** * The dataset builder *)

Section BuilderFacts.
Variable image : Type.
Variable listdir : string -> result (list string).
Variable isdir : string -> bool.
Variable os_path_join : string -> string -> string.
Variable imread : string -> option image.
Variable cvtColor_BGR2RGB : image -> image.
Variable detectable_hands : image -> list HandLandmarks.

Lemma process_image_cases (label img_path : string) :
  process_image imread cvtColor_BGR2RGB detectable_hands label img_path =
  match imread img_path with
  | None => []
  | Some img =>
      match detectable_hands (cvtColor_BGR2RGB img) with
      | [] => []
      | h :: _ => [csv_row h label]
      end
  end.
Proof.
  unfold process_image. destruct (imread img_path) as [img|]; [|reflexivity].
  unfold hands_process. cbv zeta. simpl.
  destruct (detectable_hands (cvtColor_BGR2RGB img)); reflexivity.
Qed.

Lemma process_image_usable (label_path label img_name : string) :
  process_image imread cvtColor_BGR2RGB detectable_hands label
    (os_path_join label_path img_name) =
  if usable os_path_join imread cvtColor_BGR2RGB detectable_hands label_path img_name
  then match imread (os_path_join label_path img_name) with
       | Some img =>
           match detectable_hands (cvtColor_BGR2RGB img) with
           | h :: _ => [csv_row h label]
           | [] => []
           end
       | None => []
       end
  else [].
Proof.
  rewrite process_image_cases. unfold usable.
  destruct (imread _) as [img|]; [|reflexivity].
  destruct (detectable_hands _); reflexivity.
Qed.

Lemma process_image_rows (label img_path : string) (row : list Q * string) :
  In row (process_image imread cvtColor_BGR2RGB detectable_hands label img_path) ->
  exists img h others,
    imread img_path = Some img /\
    detectable_hands (cvtColor_BGR2RGB img) = h :: others /\
    row = (coords_of (landmark h), label).
Proof.
  rewrite process_image_cases.
  destruct (imread img_path) as [img|]; [|intros []].
  destruct (detectable_hands (cvtColor_BGR2RGB img)) as [|h others] eqn:E; [intros []|].
  intros [<-|[]]. exists img, h, others. auto.
Qed.

Lemma process_label_rows (label : string) (row : list Q * string) :
  In row (fst (process_label listdir isdir os_path_join imread cvtColor_BGR2RGB
                 detectable_hands label)) ->
  exists img_names img_name,
    isdir (os_path_join DATASET_PATH label) = true /\
    listdir (os_path_join DATASET_PATH label) = Ok img_names /\
    In img_name img_names /\
    In row (process_image imread cvtColor_BGR2RGB detectable_hands label
              (os_path_join (os_path_join DATASET_PATH label) img_name)).
Proof.
  unfold process_label. cbv zeta.
  destruct (isdir (os_path_join DATASET_PATH label)); cbn [negb]; [|intros []].
  destruct (listdir (os_path_join DATASET_PATH label)) as [img_names|e]; [|intros []].
  cbn [fst]. intro H. apply in_flat_map in H. destruct H as (img_name & Hin & Hrow).
  exists img_names, img_name. auto.
Qed.

Lemma process_labels_rows (labels : list string) (row : list Q * string) :
  In row (fst (process_labels listdir isdir os_path_join imread cvtColor_BGR2RGB
                 detectable_hands labels)) ->
  exists label,
    In label labels /\
    In row (fst (process_label listdir isdir os_path_join imread cvtColor_BGR2RGB
                   detectable_hands label)).
Proof.
  induction labels as [|l rest IH]; simpl; [intros []|].
  destruct (process_label _ _ _ _ _ _ l) as [written [e|]] eqn:E.
  - cbn [fst]. intro H. exists l. rewrite E. auto.
  - destruct (process_labels _ _ _ _ _ _ rest) as [later stopped]. cbn [fst] in *.
    intro H. apply in_app_or in H. destruct H as [H|H].
    + exists l. rewrite E. auto.
    + destruct (IH H) as (label & Hin & Hrow). exists label. auto.
Qed.

End BuilderFacts.

(** A small dataset directory: two label directories and a stray file. *)
Module Disk.

Definition os_path_join (a b : string) : string := (a ++ "\" ++ b)%string.

Definition dir_A : string := os_path_join DATASET_PATH "A".
Definition dir_B : string := os_path_join DATASET_PATH "B".

Definition listdir (p : string) : result (list string) :=
  if String.eqb p DATASET_PATH then Ok ["A"; "B"; "notes.txt"]
  else if String.eqb p dir_A then Ok ["a1.jpg"; "a2.jpg"; "thumbs.db"]
  else if String.eqb p dir_B then Ok ["b1.jpg"]
  else Raise (Exception "FileNotFoundError" p).

Definition isdir (p : string) : bool := String.eqb p dir_A || String.eqb p dir_B.

(** [a1.jpg] shows one hand, [a2.jpg] none, [b1.jpg] two; [thumbs.db] is
    not an image. *)
Definition imread (p : string) : option Sample.image :=
  if String.eqb p (os_path_join dir_A "a1.jpg") then Some 2
  else if String.eqb p (os_path_join dir_A "a2.jpg") then Some 1
  else if String.eqb p (os_path_join dir_B "b1.jpg") then Some 3
  else None.

Definition build : CsvFile * option exn :=
  build_dataset listdir isdir os_path_join imread
    Sample.cvtColor_BGR2RGB Sample.detectable_hands.

Lemma hands_have_21 (img : Sample.image) :
  Forall (fun h => List.length (landmark h) = 21) (Sample.detectable_hands img).
Proof.
  destruct img as [|[|[|n]]]; repeat constructor.
Qed.

End Disk.

(** Where a data line of the CSV comes from. *)
Lemma dataset_row_origin
    (image : Type) (listdir : string -> result (list string)) (isdir : string -> bool)
    (os_path_join : string -> string -> string) (imread : string -> option image)
    (cvtColor_BGR2RGB : image -> image)
    (detectable_hands : image -> list HandLandmarks)
    (row : list Q * string) :
  In row (csv_rows (fst (build_dataset listdir isdir os_path_join imread
                           cvtColor_BGR2RGB detectable_hands))) ->
  exists labels img_names img_name img h others,
    let label_path := os_path_join DATASET_PATH (snd row) in
    listdir DATASET_PATH = Ok labels /\
    In (snd row) labels /\
    isdir label_path = true /\
    listdir label_path = Ok img_names /\
    In img_name img_names /\
    imread (os_path_join label_path img_name) = Some img /\
    detectable_hands (cvtColor_BGR2RGB img) = h :: others /\
    fst row = coords_of (landmark h).
Proof.
  unfold build_dataset.
  destruct (listdir DATASET_PATH) as [labels|e] eqn:Hl; [|intros []].
  destruct (process_labels _ _ _ _ _ _ labels) as [written stopped] eqn:Hw.
  cbn [fst csv_rows]. intro Hin.
  assert (Hin' : In row (fst (process_labels listdir isdir os_path_join imread
                                cvtColor_BGR2RGB detectable_hands labels)))
    by (rewrite Hw; exact Hin).
  destruct (process_labels_rows _ _ _ _ _ _ _ _ Hin') as (label & Hlab & Hrow).
  destruct (process_label_rows _ _ _ _ _ _ _ _ Hrow)
    as (img_names & img_name & Hdir & Hnames & Hname & Himg).
  destruct (process_image_rows _ _ _ _ _ _ Himg) as (img & h & others & Hread & Hh & ->).
  exists labels, img_names, img_name, img, h, others. cbn [fst snd]. auto 10.
Qed.


(** X10.  Every data line of the CSV comes from a readable image file
    inside an entry of the dataset directory that is itself a directory; its
    label is that directory's name and its values are the x and y of the
    first hand detected in the image.  Entries that are not directories,
    unreadable files and images without a hand add no line. *)
Theorem csv_rows_provenance
    (image : Type) (listdir : string -> result (list string)) (isdir : string -> bool)
    (os_path_join : string -> string -> string) (imread : string -> option image)
    (cvtColor_BGR2RGB : image -> image)
    (detectable_hands : image -> list HandLandmarks)
    (row : list Q * string) :
  In row (csv_rows (fst (build_dataset listdir isdir os_path_join imread
                           cvtColor_BGR2RGB detectable_hands))) ->
  exists labels img_names img_name img h others,
    let label_path := os_path_join DATASET_PATH (snd row) in
    listdir DATASET_PATH = Ok labels /\
    In (snd row) labels /\
    isdir label_path = true /\
    listdir label_path = Ok img_names /\
    In img_name img_names /\
    imread (os_path_join label_path img_name) = Some img /\
    detectable_hands (cvtColor_BGR2RGB img) = h :: others /\
    fst row = coords_of (landmark h).
Proof.
  apply dataset_row_origin.
Qed.

Lemma csv_rows_provenance_witness :
  In (coords_of (landmark Sample.open_hand), "B") (csv_rows (fst Disk.build)) /\
  exists labels img_names img_name img h others,
    Disk.listdir DATASET_PATH = Ok labels /\
    In "B" labels /\
    Disk.isdir (Disk.os_path_join DATASET_PATH "B") = true /\
    Disk.listdir (Disk.os_path_join DATASET_PATH "B") = Ok img_names /\
    In img_name img_names /\
    Disk.imread (Disk.os_path_join (Disk.os_path_join DATASET_PATH "B") img_name)
      = Some img /\
    Sample.detectable_hands (Sample.cvtColor_BGR2RGB img) = h :: others /\
    coords_of (landmark Sample.open_hand) = coords_of (landmark h).
Proof.
  assert (Hin : In (coords_of (landmark Sample.open_hand), "B")
                  (csv_rows (fst Disk.build))).
  { vm_compute. right. left. reflexivity. }
  split; [exact Hin|].
  exact (@csv_rows_provenance _ Disk.listdir Disk.isdir Disk.os_path_join Disk.imread
           Sample.cvtColor_BGR2RGB Sample.detectable_hands _ Hin).
Defined.

(** X11.  When the detector returns hands of 21 landmarks, the CSV is
    rectangular: the header has 43 names and every data line has 42 values
    and a label, also when the script was stopped by an exception. *)
Theorem csv_is_rectangular
    (image : Type) (listdir : string -> result (list string)) (isdir : string -> bool)
    (os_path_join : string -> string -> string) (imread : string -> option image)
    (cvtColor_BGR2RGB : image -> image)
    (detectable_hands : image -> list HandLandmarks) :
  (forall img, Forall (fun h => List.length (landmark h) = 21) (detectable_hands img)) ->
  let file := fst (build_dataset listdir isdir os_path_join imread
                     cvtColor_BGR2RGB detectable_hands) in
  csv_header file = header /\
  List.length (csv_header file) = 43 /\
  Forall (fun row => List.length (fst row) + 1 = List.length (csv_header file))
         (csv_rows file).
Proof.
  intros H21 file.
  assert (Hh : csv_header file = header).
  { subst file. unfold build_dataset.
    destruct (listdir DATASET_PATH); [|reflexivity].
    destruct (process_labels _ _ _ _ _ _ _); reflexivity. }
  split; [exact Hh|]. rewrite Hh. split; [reflexivity|].
  apply Forall_forall. intros row Hin.
  destruct (@dataset_row_origin _ _ _ _ _ _ _ _ Hin)
    as (labels & img_names & img_name & img & h & others
        & _ & _ & _ & _ & _ & _ & Hdet & ->).
  specialize (H21 (cvtColor_BGR2RGB img)). rewrite Hdet in H21.
  inversion H21 as [|? ? Hlen _]; subst.
  rewrite coords_of_length, Hlen. reflexivity.
Qed.

Lemma csv_is_rectangular_witness :
  (forall img, Forall (fun h => List.length (landmark h) = 21)
                 (Sample.detectable_hands img)) /\
  List.length (csv_rows (fst Disk.build)) = 2 /\
  Forall (fun row => List.length (fst row) + 1 = List.length (csv_header (fst Disk.build)))
         (csv_rows (fst Disk.build)).
Proof.
  split; [exact Disk.hands_have_21|]. split; [reflexivity|].
  exact (proj2 (proj2 (@csv_is_rectangular _ Disk.listdir Disk.isdir Disk.os_path_join
                         Disk.imread Sample.cvtColor_BGR2RGB Sample.detectable_hands
                         Disk.hands_have_21))).
Defined.

(** X12.  The builder and the server encode an image alike.  For a readable
    image: if the server's [extract_landmarks] returns a frame, the builder
    writes one line with exactly the frame's row and the frame's columns
    are the CSV header without "label"; if the server finds no hand, the
    builder writes nothing; and if building the frame fails on the server,
    the builder still writes a line, one that does not have 42 values. *)
Theorem builder_and_server_agree
    (image : Type) (imread : string -> option image)
    (cvtColor_BGR2RGB : image -> image)
    (detectable_hands : image -> list HandLandmarks)
    (label img_path : string) (img : image) :
  imread img_path = Some img ->
  let written := process_image imread cvtColor_BGR2RGB detectable_hands label img_path in
  match outcome (extract_landmarks cvtColor_BGR2RGB detectable_hands img) with
  | Ok (Some df) =>
      exists values,
        written = [(values, label)] /\ rows df = [values] /\
        header = columns df ++ ["label"]
  | Ok None => written = []
  | Raise _ =>
      exists values, written = [(values, label)] /\ List.length values <> 42
  end.
Proof.
  intros Hread written. subst written.
  rewrite process_image_cases, Hread.
  destruct (detectable_hands (cvtColor_BGR2RGB img)) as [|h others] eqn:E.
  - rewrite (extract_none _ _ _ E). reflexivity.
  - rewrite (extract_first _ _ _ E). unfold outcome. cbn [snd].
    destruct (Nat.eq_dec (List.length (landmark h)) 21) as [H21|H21].
    + rewrite (encode_21 _ H21). exists (coords_of (landmark h)). repeat split.
    + destruct (encode_other _ H21) as (e & ->).
      exists (coords_of (landmark h)). split; [reflexivity|].
      rewrite coords_of_length. lia.
Qed.

Lemma builder_and_server_agree_witness :
  Disk.imread (Disk.os_path_join Disk.dir_A "a1.jpg") = Some 2 /\
  exists values,
    process_image Disk.imread Sample.cvtColor_BGR2RGB Sample.detectable_hands "A"
      (Disk.os_path_join Disk.dir_A "a1.jpg") = [(values, "A")] /\
    rows (raw_frame Sample.open_hand) = [values] /\
    header = columns (raw_frame Sample.open_hand) ++ ["label"].
Proof.
  split; [reflexivity|].
  exact (@builder_and_server_agree _ Disk.imread Sample.cvtColor_BGR2RGB
           Sample.detectable_hands "A" (Disk.os_path_join Disk.dir_A "a1.jpg") 2 eq_refl).
Defined.

(** How many lines a label gets when the script runs to its end. *)
Definition expected_lines {image : Type}
    (listdir : string -> result (list string)) (isdir : string -> bool)
    (os_path_join : string -> string -> string) (imread : string -> option image)
    (cvtColor_BGR2RGB : image -> image)
    (detectable_hands : image -> list HandLandmarks)
    (labels : list string) (l : string) : nat :=
  let label_path := os_path_join DATASET_PATH l in
  if existsb (String.eqb l) labels && isdir label_path then
    match listdir label_path with
    | Ok img_names =>
        List.length (filter (usable os_path_join imread cvtColor_BGR2RGB
                               detectable_hands label_path) img_names)
    | Raise _ => 0
    end
  else 0.

Section BuilderCounts.
Variable image : Type.
Variable listdir : string -> result (list string).
Variable isdir : string -> bool.
Variable os_path_join : string -> string -> string.
Variable imread : string -> option image.
Variable cvtColor_BGR2RGB : image -> image.
Variable detectable_hands : image -> list HandLandmarks.

Lemma images_labels (label label_path : string) (img_names : list string) :
  map snd (flat_map (fun img_name =>
                       process_image imread cvtColor_BGR2RGB detectable_hands label
                         (os_path_join label_path img_name)) img_names) =
  repeat label
    (List.length (filter (usable os_path_join imread cvtColor_BGR2RGB detectable_hands
                            label_path) img_names)).
Proof.
  induction img_names as [|n rest IH]; [reflexivity|].
  cbn [flat_map filter]. rewrite map_app, IH, process_image_usable.
  destruct (usable _ _ _ _ label_path n) eqn:U; [|reflexivity].
  unfold usable in U.
  destruct (imread (os_path_join label_path n)) as [img|]; [|discriminate].
  destruct (detectable_hands (cvtColor_BGR2RGB img)); [discriminate|reflexivity].
Qed.

Lemma process_label_finished (label : string) (written : list (list Q * string)) :
  process_label listdir isdir os_path_join imread cvtColor_BGR2RGB detectable_hands label
  = (written, None) ->
  map snd written =
  repeat label
    (if isdir (os_path_join DATASET_PATH label) then
       match listdir (os_path_join DATASET_PATH label) with
       | Ok img_names =>
           List.length (filter (usable os_path_join imread cvtColor_BGR2RGB
                                  detectable_hands (os_path_join DATASET_PATH label))
                               img_names)
       | Raise _ => 0
       end
     else 0).
Proof.
  unfold process_label. cbv zeta.
  destruct (isdir (os_path_join DATASET_PATH label)); cbn [negb].
  - destruct (listdir (os_path_join DATASET_PATH label)) as [img_names|e]; [|discriminate].
    intro H. injection H as <-. apply images_labels.
  - intro H. injection H as <-. reflexivity.
Qed.

Lemma process_labels_count (labels : list string) (l : string)
    (written : list (list Q * string)) :
  NoDup labels ->
  process_labels listdir isdir os_path_join imread cvtColor_BGR2RGB detectable_hands labels
  = (written, None) ->
  count_label l (map snd written) =
  expected_lines listdir isdir os_path_join imread cvtColor_BGR2RGB detectable_hands
    labels l.
Proof.
  revert written. induction labels as [|l' rest IH]; intros written Hnd H.
  - simpl in H. injection H as <-. reflexivity.
  - inversion Hnd as [|? ? Hnotin Hnd']; subst.
    cbn [process_labels] in H.
    destruct (process_label _ _ _ _ _ _ l') as [w [e|]] eqn:Hw; [discriminate|].
    destruct (process_labels _ _ _ _ _ _ rest) as [later stopped] eqn:Hr.
    injection H as <- ->.
    specialize (IH later Hnd' eq_refl).
    unfold count_label in *. rewrite map_app, count_occ_app, IH.
    rewrite (process_label_finished _ Hw).
    unfold expected_lines. cbv zeta. cbn [existsb].
    destruct (String.eqb_spec l l') as [->|Hne].
    + rewrite count_occ_repeat_eq by reflexivity.
      assert (Hex : existsb (String.eqb l') rest = false).
      { destruct (existsb (String.eqb l') rest) eqn:E; [|reflexivity].
        apply existsb_exists in E. destruct E as (x & Hin & Heq).
        apply String.eqb_eq in Heq. subst x. contradiction. }
      rewrite Hex. cbn [orb andb]. rewrite Nat.add_0_r. reflexivity.
    + rewrite count_occ_repeat_neq by exact Hne. reflexivity.
Qed.

End BuilderCounts.

(** X13.  When the dataset directory lists each entry once and the script
    runs to its end, the number of CSV lines carrying a label is the number
    of files in that label's directory that are readable images with a
    detected hand; a name that is not a listed directory gets no line. *)
Theorem csv_lines_per_label
    (image : Type) (listdir : string -> result (list string)) (isdir : string -> bool)
    (os_path_join : string -> string -> string) (imread : string -> option image)
    (cvtColor_BGR2RGB : image -> image)
    (detectable_hands : image -> list HandLandmarks)
    (labels : list string) (l : string) :
  listdir DATASET_PATH = Ok labels ->
  NoDup labels ->
  let run := build_dataset listdir isdir os_path_join imread
               cvtColor_BGR2RGB detectable_hands in
  snd run = None ->
  count_label l (map snd (csv_rows (fst run))) =
  if existsb (String.eqb l) labels && isdir (os_path_join DATASET_PATH l) then
    match listdir (os_path_join DATASET_PATH l) with
    | Ok img_names =>
        List.length (filter (usable os_path_join imread cvtColor_BGR2RGB
                               detectable_hands (os_path_join DATASET_PATH l)) img_names)
    | Raise _ => 0
    end
  else 0.
Proof.
  intros Hl Hnd run. subst run. unfold build_dataset. rewrite Hl.
  destruct (process_labels _ _ _ _ _ _ labels) as [written stopped] eqn:Hw.
  cbn [fst snd csv_rows]. intros ->.
  exact (@process_labels_count _ listdir isdir os_path_join imread cvtColor_BGR2RGB
           detectable_hands labels l written Hnd Hw).
Qed.

Lemma csv_lines_per_label_witness :
  Disk.listdir DATASET_PATH = Ok ["A"; "B"; "notes.txt"] /\
  NoDup ["A"; "B"; "notes.txt"] /\
  snd Disk.build = None /\
  count_label "A" (map snd (csv_rows (fst Disk.build))) = 1 /\
  count_label "notes.txt" (map snd (csv_rows (fst Disk.build))) = 0.
Proof.
  assert (Hnd : NoDup ["A"; "B"; "notes.txt"]).
  { repeat constructor; simpl; intuition discriminate. }
  split; [reflexivity|]. split; [exact Hnd|]. split; [reflexivity|].
  split.
  - exact (@csv_lines_per_label _ Disk.listdir Disk.isdir Disk.os_path_join Disk.imread
             Sample.cvtColor_BGR2RGB Sample.detectable_hands
             ["A"; "B"; "notes.txt"] "A" eq_refl Hnd eq_refl).
  - exact (@csv_lines_per_label _ Disk.listdir Disk.isdir Disk.os_path_join Disk.imread
             Sample.cvtColor_BGR2RGB Sample.detectable_hands
             ["A"; "B"; "notes.txt"] "notes.txt" eq_refl Hnd eq_refl).
Defined.

(* ================================================================== *)
(** * More about the trainer *)

Lemma series_min_none (counts : list (string * nat)) :
  series_min counts = None -> counts = [].
Proof.
  destruct counts as [|[k c] rest]; [reflexivity|]. simpl.
  destruct (series_min rest); discriminate.
Qed.

Lemma value_counts_nil (labels : list string) : value_counts labels = [] -> labels = [].
Proof.
  destruct labels as [|l rest]; [reflexivity|]. intro H. exfalso.
  assert (Hin : In (l, count_label l (l :: rest)) (value_counts (l :: rest))).
  { apply value_counts_spec. split; [left; reflexivity | reflexivity]. }
  rewrite H in Hin. exact Hin.
Qed.

Lemma rare_classes_spec (labels : list string) (l : string) :
  In l (rare_classes_of (value_counts labels)) <->
  In l labels /\ count_label l labels < MIN_SAMPLES_PER_CLASS.
Proof.
  unfold rare_classes_of. rewrite in_map_iff. split.
  - intros ([k c] & <- & Hin). apply filter_In in Hin. destruct Hin as [Hin Hlt].
    apply value_counts_spec in Hin. destruct Hin as [Hin ->].
    simpl in *. apply Nat.ltb_lt in Hlt. auto.
  - intros [Hin Hlt]. exists (l, count_label l labels). split; [reflexivity|].
    apply filter_In. split; [apply value_counts_spec; auto|].
    simpl. apply Nat.ltb_lt, Hlt.
Qed.

Lemma kept_iff_frequent (labels : list string) (l : string) :
  In l labels ->
  negb (existsb (String.eqb l) (rare_classes_of (value_counts labels))) =
  (MIN_SAMPLES_PER_CLASS <=? count_label l labels)%nat.
Proof.
  intro Hin.
  destruct (Nat.leb_spec MIN_SAMPLES_PER_CLASS (count_label l labels)) as [Hge|Hlt].
  - apply negb_true_iff.
    destruct (existsb _ _) eqn:E; [|reflexivity].
    apply existsb_exists in E. destruct E as (x & Hx & Heq).
    apply String.eqb_eq in Heq. subst x.
    apply rare_classes_spec in Hx. lia.
  - apply negb_false_iff, existsb_exists. exists l.
    split; [apply rare_classes_spec; auto | apply String.eqb_refl].
Qed.

(** The filtering step, whichever branch is taken. *)
Lemma run_df_is_filter (df : list Row) :
  run_df (train_model df) =
  filter (fun r => (MIN_SAMPLES_PER_CLASS <=? count_label (label r) (map label df))%nat) df.
Proof.
  unfold train_model. cbn [run_df].
  assert (Hext : filter (fun r => negb (existsb (String.eqb (label r))
                                    (rare_classes_of (value_counts (map label df))))) df
                 = filter (fun r => (MIN_SAMPLES_PER_CLASS
                                     <=? count_label (label r) (map label df))%nat) df).
  { apply filter_ext_in. intros r Hr. apply kept_iff_frequent, in_map, Hr. }
  destruct (rare_classes_of (value_counts (map label df))) eqn:E.
  - rewrite <- Hext. simpl. clear. induction df; simpl; congruence.
  - exact Hext.
Qed.

Lemma count_label_filter_out (p : string -> bool) (df : list Row) (l : string) :
  p l = false ->
  count_label l (map label (filter (fun r => p (label r)) df)) = 0.
Proof.
  intro Hp. unfold count_label.
  induction df as [|r df IH]; simpl; [reflexivity|].
  destruct (p (label r)) eqn:E; simpl; [|exact IH].
  destruct (string_dec (label r) l) as [Heq|_]; [|exact IH].
  rewrite Heq in E. congruence.
Qed.

(** A run that reaches line 57 split and fitted a frame that has rows. *)
Lemma train_script_reached (sk : Sklearn) (df : list Row) (run : TrainerRun) :
  train_script df = Ok run ->
  run = train_model df /\ run_df run <> [].
Proof.
  unfold train_script, train_model.
  set (df' := match rare_classes_of (value_counts (map label df)) with
              | [] => df
              | _ => drop_rare (rare_classes_of (value_counts (map label df))) df
              end).
  destruct (train_test_split df') as [[train test]|e] eqn:Hs; [|discriminate].
  destruct (model_fit train) as [u|e]; [|discriminate].
  intro H. injection H as <-. split; [reflexivity|].
  cbn [run_df]. intro Hnil. rewrite Hnil in Hs.
  destruct train_test_split_empty as (e & He). congruence.
Qed.

(** A split that takes every fifth row away, and a fit that succeeds. *)
Definition sample_sklearn : Sklearn :=
  {| train_test_split := fun rows =>
       match rows with
       | [] => Raise (Exception "ValueError"
                        "With n_samples=0, test_size=0.2 and train_size=None, the resulting train set will be empty. Adjust any of the aforementioned parameters.")
       | _ :: _ =>
           Ok (skipn (List.length rows / 5) rows, firstn (List.length rows / 5) rows)
       end;
     train_test_split_empty := ex_intro _ _ eq_refl;
     model_fit := fun _ => Ok tt |}.

(** X14.  When the script reaches line 57, the fold count is between 2 and
    5 and is decided by the file as loaded, dropped classes included: with
    [m] the size of the smallest class in the loaded file, it is 5 when [m]
    is at least 5 and max(2, m) otherwise. *)
Theorem cv_folds_from_loaded_counts (sk : Sklearn) (df : list Row) (run : TrainerRun) :
  train_script df = Ok run ->
  let labels := map label df in
  let folds := run_cv_folds run in
  2 <= folds <= 5 /\
  exists m,
    series_min (value_counts labels) = Some m /\
    (exists l, In l labels /\ count_label l labels = m) /\
    (forall l, In l labels -> m <= count_label l labels) /\
    folds = if (m <? 5)%nat then Nat.max 2 m else 5.
Proof.
  intro Hrun. destruct (train_script_reached _ _ Hrun) as [-> Hrows]. cbv zeta.
  rewrite run_cv_folds_reads_raw_counts. unfold cv_folds_of.
  destruct (series_min (value_counts (map label df))) as [m|] eqn:E.
  - destruct (series_min_spec _ E) as [[l Hl] Hmin].
    apply value_counts_spec in Hl. destruct Hl as [Hin Hm].
    split; [destruct (Nat.ltb_spec m 5); lia|].
    exists m. split; [reflexivity|].
    split; [exists l; auto|]. split; [|reflexivity].
    intros l' Hin'. apply (Hmin l'). apply value_counts_spec. auto.
  - exfalso. apply Hrows.
    apply series_min_none, value_counts_nil in E.
    destruct df; [reflexivity | discriminate].
Qed.

Lemma cv_folds_from_loaded_counts_witness :
  train_script (sk := sample_sklearn) lopsided_csv = Ok (train_model lopsided_csv) /\
  2 <= run_cv_folds (train_model lopsided_csv) <= 5 /\
  exists m,
    series_min (value_counts (map label lopsided_csv)) = Some m /\
    (exists l, In l (map label lopsided_csv) /\
               count_label l (map label lopsided_csv) = m) /\
    (forall l, In l (map label lopsided_csv) ->
               m <= count_label l (map label lopsided_csv)) /\
    run_cv_folds (train_model lopsided_csv) = if (m <? 5)%nat then Nat.max 2 m else 5.
Proof.
  assert (Hrun : train_script (sk := sample_sklearn) lopsided_csv
                 = Ok (train_model lopsided_csv)) by (vm_compute; reflexivity).
  split; [exact Hrun|].
  exact (@cv_folds_from_loaded_counts sample_sklearn lopsided_csv _ Hrun).
Defined.

(** X15.  The filtering step keeps exactly the rows whose class has at
    least 10 rows in the loaded file, in their order; the classes reported
    as dropped are exactly those with fewer than 10 rows; a kept class keeps
    all its rows and a dropped class keeps none. *)
Theorem rare_classes_are_dropped (df : list Row) :
  let labels := map label df in
  let run := train_model df in
  run_df run = filter (fun r => (10 <=? count_label (label r) labels)%nat) df /\
  (forall l, In l (run_rare_classes run) <-> In l labels /\ count_label l labels < 10) /\
  (forall l, 10 <= count_label l labels ->
             count_label l (map label (run_df run)) = count_label l labels) /\
  (forall l, count_label l labels < 10 ->
             count_label l (map label (run_df run)) = 0).
Proof.
  cbv zeta. split; [apply run_df_is_filter|].
  split; [intro l; apply rare_classes_spec|].
  rewrite run_df_is_filter. split; intros l Hl.
  - apply (count_label_filter
             (fun k => (MIN_SAMPLES_PER_CLASS <=? count_label k (map label df))%nat)).
    apply Nat.leb_le, Hl.
  - apply (count_label_filter_out
             (fun k => (MIN_SAMPLES_PER_CLASS <=? count_label k (map label df))%nat)).
    apply Nat.leb_gt, Hl.
Qed.

(** X16.  Filtering is idempotent: run on the frame it has just filtered,
    the script finds no rare class and keeps every row; and when that second
    run reaches line 57 it uses 5 folds. *)
Theorem filtering_is_idempotent (sk : Sklearn) (df : list Row) :
  let once := train_model df in
  run_rare_classes (train_model (run_df once)) = [] /\
  run_df (train_model (run_df once)) = run_df once /\
  (forall twice, train_script (run_df once) = Ok twice -> run_cv_folds twice = 5).
Proof.
  cbv zeta.
  assert (Hrare : run_rare_classes (train_model (run_df (train_model df))) = []).
  { destruct (run_rare_classes (train_model (run_df (train_model df)))) as [|l rest] eqn:E;
      [reflexivity|].
    exfalso.
    assert (Hin : In l (run_rare_classes (train_model (run_df (train_model df)))))
      by (rewrite E; left; reflexivity).
    apply rare_classes_spec in Hin. destruct Hin as [Hin Hlt].
    assert (Hc : In (l, count_label l (map label (run_df (train_model df))))
                   (value_counts (map label (run_df (train_model df)))))
      by (apply value_counts_spec; auto).
    apply filtered_classes_have_min_samples in Hc. lia. }
  split; [exact Hrare|]. split.
  - unfold train_model at 1. cbn [run_df].
    unfold train_model at 1 in Hrare. cbn [run_rare_classes] in Hrare.
    rewrite Hrare. reflexivity.
  - intros twice Htwice. destruct (train_script_reached _ _ Htwice) as [-> _].
    rewrite run_cv_folds_reads_raw_counts. apply cv_folds_of_filtered.
Qed.
